(** * Spreadsheet exporters of the import tracker

    A shallow embedding of [server/excel_export.py] (the template-driven
    tax-calculation report) and of [server/excel_beyanname_export.py]
    (the static-template declaration export), and the properties of
    their specification proved on it.

    Python values are a small inductive type, IEEE binary64 numbers are
    Rocq's primitive floats, exceptions are an error monad, and the
    openpyxl worksheet the exporters mutate is an explicit state: a
    finite map of cells, the list of merged regions, the row heights and
    the conditional-formatting rules. *)

From Stdlib Require Import ZArith Lia List String Ascii Bool.
From Stdlib Require Import Floats.
From stdpp Require Import gmap strings list fin_maps.

Local Open Scope string_scope.
Local Open Scope list_scope.
Local Open Scope Z_scope.

Set Warnings "-register-all,-inexact-float".

(** ** Python values *)

Inductive pyval :=
| PNone
| PBool (b : bool)
| PInt (z : Z)
| PFloat (f : float)
| PStr (s : string)
| PList (l : list pyval)
| PDict (d : gmap string pyval).

(** The exceptions the exporters can run into. *)
Inductive pyerr :=
| TypeError
| ValueError
| OverflowError
| AttributeError
| KeyError.

Inductive result (A : Type) :=
| Ok (a : A)
| Raise (e : pyerr).
Arguments Ok {A} a.
Arguments Raise {A} e.

Definition bind {A B} (m : result A) (k : A -> result B) : result B :=
  match m with
  | Ok a => k a
  | Raise e => Raise e
  end.

Notation "x <- m ;; k" := (bind m (fun x => k))
  (at level 100, m at next level, right associativity).

(** [dict.get(key, default)] *)
Definition dict_get (d : gmap string pyval) (key : string) (dflt : pyval) : pyval :=
  default dflt (d !! key).

(** Truth value of an object, as [if v:] tests it. *)
Definition py_truthy (v : pyval) : bool :=
  match v with
  | PNone => false
  | PBool b => b
  | PInt z => negb (z =? 0)
  | PFloat f => negb (PrimFloat.eqb f 0%float)
  | PStr s => negb (String.eqb s EmptyString)
  | PList l => match l with [] => false | _ => true end
  | PDict d => negb (bool_decide (d = ∅))
  end.

(** The parts of the Python runtime that are not spelled out here:
    parsing a string as a number, [str()], and the ISO date
    re-formatting ([fromisoformat] followed by [strftime('%d/%m/%Y')],
    [None] when the parse raises). *)
Class PyBuiltins := {
  float_of_string : string -> option float;
  int_of_string : string -> option Z;
  py_str : pyval -> string;
  iso_to_dmy : string -> option string
}.

(** int -> float, correctly rounded (round to nearest even), as
    [PyLong_AsDouble]; an int beyond the binary64 range raises. *)
Definition float_of_Z (z : Z) : float :=
  SF2Prim (binary_normalize 53 1024 z 0 false).

Definition float_of_int (z : Z) : result float :=
  let f := float_of_Z z in
  if PrimFloat.is_infinity f then Raise OverflowError else Ok f.

(** float -> int truncates toward zero; nan and the infinities raise. *)
Definition int_of_float (f : float) : result Z :=
  match Prim2SF f with
  | S754_zero _ => Ok 0
  | S754_infinity _ => Raise OverflowError
  | S754_nan => Raise ValueError
  | S754_finite s m e =>
      let a := if (0 <=? e) then Z.pos m * 2 ^ e else Z.pos m / 2 ^ (- e) in
      Ok (if s then - a else a)
  end.

Section Coercions.
Context {builtins : PyBuiltins}.

(** [float(v)] *)
Definition py_float (v : pyval) : result float :=
  match v with
  | PFloat f => Ok f
  | PInt z => float_of_int z
  | PBool b => Ok (if b then 1%float else 0%float)
  | PStr s => match float_of_string s with
              | Some f => Ok f
              | None => Raise ValueError
              end
  | PNone | PList _ | PDict _ => Raise TypeError
  end.

(** [int(v)] *)
Definition py_int (v : pyval) : result Z :=
  match v with
  | PInt z => Ok z
  | PBool b => Ok (if b then 1 else 0)
  | PFloat f => int_of_float f
  | PStr s => match int_of_string s with
              | Some z => Ok z
              | None => Raise ValueError
              end
  | PNone | PList _ | PDict _ => Raise TypeError
  end.

End Coercions.

(** [sum(xs)] over floats: the accumulator starts as the int [0], so the
    empty sum is the int [0] and any other sum is a float, accumulated
    from the left. *)
Definition py_sum (xs : list float) : pyval :=
  match xs with
  | [] => PInt 0
  | x :: rest => PFloat (fold_left PrimFloat.add rest (PrimFloat.add 0%float x))
  end.

(** [a + b] and [a - b] on the numbers [py_sum] returns. *)
Definition py_arith (fop : float -> float -> float) (zop : Z -> Z -> Z)
    (a b : pyval) : result pyval :=
  match a, b with
  | PInt x, PInt y => Ok (PInt (zop x y))
  | PFloat x, PFloat y => Ok (PFloat (fop x y))
  | PInt x, PFloat y => x' <- float_of_int x ;; Ok (PFloat (fop x' y))
  | PFloat x, PInt y => y' <- float_of_int y ;; Ok (PFloat (fop x y'))
  | _, _ => Raise TypeError
  end.

Definition py_add := py_arith PrimFloat.add Z.add.
Definition py_sub := py_arith PrimFloat.sub Z.sub.


(** ** Cell coordinates

    A coordinate is a pair (row, column), both counted from 1.  A cell
    reference such as ['AB12'] is kept as its two parts, the column
    letters and the row number. *)

Abbreviation coord := (Z * Z)%type.
Abbreviation cell_ref := (string * Z)%type.

Definition letter_index (a : ascii) : Z := Z.of_N (N_of_ascii a) - 64.

Fixpoint column_index_acc (acc : Z) (s : string) : Z :=
  match s with
  | EmptyString => acc
  | String a s' => column_index_acc (acc * 26 + letter_index a) s'
  end.

Definition column_index_from_string (s : string) : Z := column_index_acc 0 s.

(** [coordinate_to_tuple(cell_ref)] *)
Definition coordinate_to_tuple (ref : cell_ref) : coord :=
  (snd ref, column_index_from_string (fst ref)).

(** ** Styles *)

Record Side := mkSide { side_style : option string; side_color : option string }.

Record Border := mkBorder {
  border_left : Side; border_right : Side; border_top : Side; border_bottom : Side
}.

Record PatternFill := mkPatternFill {
  fill_type : option string; start_color : string; end_color : string
}.

(** [Border()] and [PatternFill(fill_type=None)] *)
Definition no_side : Side := mkSide None None.
Definition Border_default : Border := mkBorder no_side no_side no_side no_side.
Definition no_fill : PatternFill := mkPatternFill None "00000000" "00000000".

(** The six style attributes the exporter copies.  Fonts, protections
    and alignments are only ever copied, so they are opaque tokens. *)
Record Style := mkStyle {
  font : nat;
  border : Border;
  fill : PatternFill;
  number_format : string;
  protection : nat;
  alignment : nat
}.

Definition default_style : Style :=
  mkStyle 0%nat Border_default no_fill "General" 0%nat 0%nat.

#[global] Instance Side_eq_dec : EqDecision Side.
Proof. solve_decision. Defined.
#[global] Instance Border_eq_dec : EqDecision Border.
Proof. solve_decision. Defined.
#[global] Instance PatternFill_eq_dec : EqDecision PatternFill.
Proof. solve_decision. Defined.
#[global] Instance Style_eq_dec : EqDecision Style.
Proof. solve_decision. Defined.

(** [cell.has_style]: some attribute differs from the default. *)
Definition has_style (st : Style) : bool := negb (bool_decide (st = default_style)).

Definition set_border (b : Border) (st : Style) : Style :=
  mkStyle (font st) b (fill st) (number_format st) (protection st) (alignment st).

Definition set_fill (f : PatternFill) (st : Style) : Style :=
  mkStyle (font st) (border st) f (number_format st) (protection st) (alignment st).

(** ** Worksheets *)

(** An ordinary cell carries a value and a style.  The cells of a merged
    region other than its top-left one are [MergedCell]s: they carry a
    style, read as [None] and refuse a value. *)
Inductive cell :=
| Cell (value : pyval) (style : Style)
| MergedCell (style : Style).

Definition blank_cell : cell := Cell PNone default_style.

Definition value_of (c : cell) : pyval :=
  match c with
  | Cell v _ => v
  | MergedCell _ => PNone
  end.

Definition style_of (c : cell) : Style :=
  match c with
  | Cell _ st => st
  | MergedCell st => st
  end.

Definition map_style (g : Style -> Style) (c : cell) : cell :=
  match c with
  | Cell v st => Cell v (g st)
  | MergedCell st => MergedCell (g st)
  end.

Record CellRange := mkCellRange {
  min_col : Z; min_row : Z; max_col : Z; max_row : Z
}.

#[global] Instance CellRange_eq_dec : EqDecision CellRange.
Proof. solve_decision. Defined.

(** The constructor refuses an inverted range. *)
Definition CellRange_new (c0 r0 c1 r1 : Z) : result CellRange :=
  if (c1 <? c0) || (r1 <? r0) then Raise ValueError
  else Ok (mkCellRange c0 r0 c1 r1).

(** [coord in range] *)
Definition in_range (rc : coord) (r : CellRange) : bool :=
  (min_row r <=? fst rc) && (fst rc <=? max_row r) &&
  (min_col r <=? snd rc) && (snd rc <=? max_col r).

(** [a <= b]: every cell of [a] is a cell of [b]. *)
Definition range_subset (a b : CellRange) : bool :=
  (min_row b <=? min_row a) && (max_row a <=? max_row b) &&
  (min_col b <=? min_col a) && (max_col a <=? max_col b).

(** A registered merged region: its bounds, and where its start cell
    is.  [start_cell] is the cell object found at the top-left corner
    when the region was created; the object follows its row when rows
    are inserted above it, while the bounds stay. *)
Record MergedCellRange := mkMerged {
  bounds : CellRange;
  start_cell : coord
}.

Definition top_left_of (r : CellRange) : coord := (min_row r, min_col r).

Definition MergedCellRange_new (cr : CellRange) : MergedCellRange :=
  mkMerged cr (top_left_of cr).

(** The coordinates [iter_rows] walks, row by row. *)
Definition box_coords (r0 r1 c0 c1 : Z) : list coord :=
  r ← seqZ r0 (r1 - r0 + 1); (fun c => (r, c)) <$> seqZ c0 (c1 - c0 + 1).

Definition range_cells (r : CellRange) : list coord :=
  box_coords (min_row r) (max_row r) (min_col r) (max_col r).

Record Rule := mkRule {
  rule_type : string;
  rule_dxf : Border;
  stopIfTrue : bool;
  formula : list string
}.

Record Worksheet := mkWorksheet {
  cells : gmap (Z * Z) cell;
  merged_cells : list MergedCellRange;
  row_dimensions : gmap Z float;
  conditional_formatting : list (CellRange * Rule)
}.

Definition with_cells (m : gmap (Z * Z) cell) (ws : Worksheet) : Worksheet :=
  mkWorksheet m (merged_cells ws) (row_dimensions ws) (conditional_formatting ws).

(** What [ws.cell(row, col)] hands back: the stored cell, or a blank one
    created on the spot. *)
Definition get_cell (ws : Worksheet) (rc : coord) : cell :=
  default blank_cell (cells ws !! rc).

(** Fetch the cell at [rc], creating it when missing, and mutate it. *)
Definition upd_cell (g : cell -> cell) (rc : coord) (ws : Worksheet) : Worksheet :=
  with_cells (<[rc := g (get_cell ws rc)]> (cells ws)) ws.

(** [ws.cell(row, col)] for its effect only. *)
Definition materialize (rc : coord) (ws : Worksheet) : Worksheet := upd_cell id rc ws.

(** [ws[rc].value = v]; a [MergedCell] has a read-only value. *)
Definition set_value (rc : coord) (v : pyval) (ws : Worksheet) : result Worksheet :=
  match get_cell ws rc with
  | Cell _ st => Ok (with_cells (<[rc := Cell v st]> (cells ws)) ws)
  | MergedCell _ => Raise AttributeError
  end.

(** The observers used to state properties of a finished sheet. *)
Definition cell_value (ws : Worksheet) (rc : coord) : pyval := value_of (get_cell ws rc).
Definition cell_style (ws : Worksheet) (rc : coord) : Style := style_of (get_cell ws rc).

(** [ws.max_row] and [ws.max_column]: 1 on an empty sheet. *)
Definition max_of (l : list Z) : Z :=
  match l with
  | [] => 1
  | x :: rest => foldr Z.max x rest
  end.

Definition ws_max_row (ws : Worksheet) : Z :=
  max_of ((fun p => fst (fst p)) <$> map_to_list (cells ws)).

Definition ws_max_column (ws : Worksheet) : Z :=
  max_of ((fun p => snd (fst p)) <$> map_to_list (cells ws)).

(** [ws.insert_rows(idx)]: every cell on row [idx] or below moves one
    row down, the start cells of merged regions among them.  The bounds
    of the merged regions, the row heights and the conditional formats
    stay where they are. *)
Definition shift_row (idx : Z) (rc : coord) : coord :=
  if idx <=? fst rc then (fst rc + 1, snd rc) else rc.

Definition move_start (idx : Z) (r : MergedCellRange) : MergedCellRange :=
  mkMerged (bounds r) (shift_row idx (start_cell r)).

Definition insert_rows (idx : Z) (ws : Worksheet) : Worksheet :=
  mkWorksheet (kmap (shift_row idx) (cells ws))
              (move_start idx <$> merged_cells ws)
              (row_dimensions ws) (conditional_formatting ws).

(** [ws.merge_cells(range)]: the region's top-left cell is created when
    missing, the region is registered unless a registered region already
    covers it, and every other cell of the region is replaced by a fresh
    [MergedCell].  (openpyxl also re-derives the borders of the region's
    edge cells from its top-left cell; borders inside data rows are not
    tracked beyond this point.) *)
Definition merge_cells (cr : CellRange) (ws : Worksheet) : Worksheet :=
  let ws1 := materialize (top_left_of cr) ws in
  let regs := if existsb (fun r => range_subset cr (bounds r)) (merged_cells ws1)
              then merged_cells ws1
              else merged_cells ws1 ++ [MergedCellRange_new cr] in
  let cs := foldl (fun m rc => <[rc := MergedCell default_style]> m)
                  (cells ws1) (tail (range_cells cr)) in
  mkWorksheet cs regs (row_dimensions ws1) (conditional_formatting ws1).

(** [ws.conditional_formatting.add(range_string, rule)] *)
Definition cf_add (c0 r0 c1 r1 : Z) (rule : Rule) (ws : Worksheet) : result Worksheet :=
  cr <- CellRange_new c0 r0 c1 r1 ;;
  Ok (mkWorksheet (cells ws) (merged_cells ws) (row_dimensions ws)
        (conditional_formatting ws ++ [(cr, rule)])).

(** ** [excel_export.py] *)

Module ExcelExport.

(** [set_cell_value(ws, cell_ref, value)]: a reference inside a merged
    region is written at the region's start cell; any other reference is
    written in place, and the [AttributeError] of a read-only cell is
    swallowed. *)
Definition set_cell_value (ws : Worksheet) (cell_ref : cell_ref) (value : pyval)
    : result Worksheet :=
  let rc := coordinate_to_tuple cell_ref in
  match find (fun r => in_range rc (bounds r)) (merged_cells ws) with
  | Some merged_range =>
      let top_left := start_cell merged_range in
      set_value top_left value ws
  | None =>
      match set_value rc value ws with
      | Raise AttributeError => Ok ws
      | r => r
      end
  end.

(** A run of consecutive [set_cell_value] calls; each argument is
    evaluated right before its call, so a failing coercion stops the run
    at that call. *)
Fixpoint set_cell_values (ws : Worksheet) (calls : list (cell_ref * result pyval))
    : result Worksheet :=
  match calls with
  | [] => Ok ws
  | (ref, arg) :: rest =>
      v <- arg ;;
      ws' <- set_cell_value ws ref v ;;
      set_cell_values ws' rest
  end.

Definition lit (s : string) : result pyval := Ok (PStr s).

(** Copy the cached value of every formula cell over the formula
    (lines 35-39).  A formula is a string value starting with [=]. *)
Definition is_formula (c : cell) : bool :=
  match c with
  | Cell (PStr s) _ => String.prefix "=" s
  | _ => false
  end.

Definition prebake_cell (ws_data : Worksheet) (rc : coord) (ws : Worksheet) : Worksheet :=
  let ws1 := materialize rc ws in
  if is_formula (get_cell ws1 rc)
  then upd_cell (fun c => Cell (cell_value ws_data rc) (style_of c)) rc ws1
  else ws1.

Definition prebake (ws_data ws : Worksheet) : Worksheet :=
  if bool_decide (cells ws = ∅) then ws
  else foldl (fun w rc => prebake_cell ws_data rc w) ws
         (box_coords 1 (ws_max_row ws) 1 (ws_max_column ws)).

Section Report.
Context {builtins : PyBuiltins}.

Definition float_field (d : gmap string pyval) (key : string) : result pyval :=
  f <- py_float (dict_get d key (PInt 0)) ;; Ok (PFloat f).

Definition int_field (d : gmap string pyval) (key : string) : result pyval :=
  z <- py_int (dict_get d key (PInt 0)) ;; Ok (PInt z).

Definition text_field (d : gmap string pyval) (key : string) : result pyval :=
  Ok (dict_get d key (PStr EmptyString)).

(** Lines 48-59. *)
Definition formatted_date (calc : gmap string pyval) : pyval :=
  let invoice_date := dict_get calc "invoice_date" (PStr EmptyString) in
  if py_truthy invoice_date then
    match invoice_date with
    | PStr s => match iso_to_dmy s with
                | Some d => PStr d
                | None => invoice_date
                end
    | _ => invoice_date
    end
  else PStr EmptyString.

(** Lines 46-72. *)
Definition write_header (calc : gmap string pyval) (ws : Worksheet) : result Worksheet :=
  set_cell_values ws [
    (("B", 2), text_field calc "invoice_no");
    (("B", 4), Ok (formatted_date calc));
    (("C", 2), lit "TOTAL VALUE");
    (("D", 2), float_field calc "total_value");
    (("D", 4), int_field calc "total_quantity");
    (("E", 2), lit "TRANSPORT COST");
    (("E", 4), lit "INSURANCE COST");
    (("G", 2), lit "STORAGE COST");
    (("G", 4), lit "CURRENCY -USD/TL-");
    (("F", 2), float_field calc "transport_cost");
    (("F", 4), float_field calc "insurance_cost");
    (("H", 2), float_field calc "storage_cost");
    (("H", 4), float_field calc "currency_rate")
  ].

(** [sum(float(item.get(key, 0)) for item in items)] *)
Fixpoint float_fields (key : string) (items : list (gmap string pyval)) : result (list float) :=
  match items with
  | [] => Ok []
  | item :: rest =>
      x <- py_float (dict_get item key (PInt 0)) ;;
      xs <- float_fields key rest ;;
      Ok (x :: xs)
  end.

Definition sum_field (key : string) (items : list (gmap string pyval)) : result pyval :=
  xs <- float_fields key items ;; Ok (py_sum xs).

Record Totals := mkTotals {
  total_customs_tax : pyval;
  total_add_customs_tax : pyval;
  total_kkdf : pyval;
  total_vat : pyval;
  total_tax_usd : pyval;
  total_tax_tl : pyval
}.

(** Lines 74-79. *)
Definition compute_totals (items : list (gmap string pyval)) : result Totals :=
  a <- sum_field "customs_tax" items ;;
  b <- sum_field "additional_customs_tax" items ;;
  c <- sum_field "kkdf" items ;;
  d <- sum_field "vat" items ;;
  e <- sum_field "total_tax_usd" items ;;
  f <- sum_field "total_tax_tl" items ;;
  Ok (mkTotals a b c d e f).

(** Lines 81-97. *)
Definition write_summary (t : Totals) (ws : Worksheet) : result Worksheet :=
  set_cell_values ws [
    (("A", 6), lit "TOTAL CUSTOMS TAX");
    (("B", 6), lit "TOTAL ADD. CUSTOMS TAX");
    (("C", 6), lit "TOTAL KKDF");
    (("D", 6), lit "TOTAL VAT (KKDF INCLUDED)");
    (("E", 6), lit "TOTAL VAT (KKDF EXCLUDED)");
    (("F", 6), lit "TOTAL TAX (KKDF INCLUDED)");
    (("G", 6), lit "TOTAL TAX (KKDF EXCLUDED)");
    (("H", 6), lit "TOTAL TAX TURKISH LIRA");
    (("A", 7), Ok (total_customs_tax t));
    (("B", 7), Ok (total_add_customs_tax t));
    (("C", 7), Ok (total_kkdf t));
    (("D", 7), py_add (total_vat t) (total_kkdf t));
    (("E", 7), Ok (total_vat t));
    (("F", 7), Ok (total_tax_usd t));
    (("G", 7), py_sub (total_tax_usd t) (total_kkdf t));
    (("H", 7), Ok (total_tax_tl t))
  ].

(** Lines 99-128. *)
Definition column_titles : list (string * string) := [
  ("A", "HTS Codes"); ("B", "Country of Origin"); ("C", "Style");
  ("D", "Color"); ("E", "Category"); ("F", "Description");
  ("G", "Fabric Content"); ("H", "Cost"); ("I", "Unit");
  ("J", "Total Value"); ("K", "TR HS CODE"); ("L", "EX REGISTRY FORM");
  ("M", "AZO DYE TEST"); ("N", "SPECIAL CUSTOMS"); ("O", "TRANSPORT");
  ("P", "INSURANCE"); ("Q", "STORAGE"); ("R", "CUSTOMS TAX %");
  ("S", "ADDITIONAL CUSTOMS TAX %"); ("T", "KKDF %"); ("U", "VAT %");
  ("V", "TOTAL CUSTOMS TAX"); ("W", "TOTAL ADDT CUSTOMS TAX");
  ("X", "KKDF VALUE"); ("Y", "VAT BASE WITH KKDF");
  ("Z", "VAT BASE WITHOUT KKDF"); ("AA", "VAT VALUE WITH KKDF");
  ("AB", "VAT VALUE WITHOUT KKDF"); ("AC", "TOTAL TAX WITH KKDF");
  ("AD", "TOTAL TAX WITHOUT KKDF")
].

Definition write_titles (ws : Worksheet) : result Worksheet :=
  set_cell_values ws ((fun p => ((fst p, 9), lit (snd p))) <$> column_titles).

(** *** The row loop (lines 130-233) *)

Definition template_row : Z := 10.

(** Lines 139-149, for one column. *)
Definition clone_cell_style (row_num col : Z) (ws : Worksheet) : Worksheet :=
  let ws1 := materialize (template_row, col) ws in
  let ws2 := materialize (row_num, col) ws1 in
  let template_style := cell_style ws2 (template_row, col) in
  if has_style template_style
  then upd_cell (map_style (fun _ => template_style)) (row_num, col) ws2
  else ws2.

(** Line 151. *)
Definition copy_row_height (row_num : Z) (ws : Worksheet) : Worksheet :=
  let h := match row_dimensions ws !! template_row with
           | Some x => <[row_num := x]> (row_dimensions ws)
           | None => delete row_num (row_dimensions ws)
           end in
  mkWorksheet (cells ws) (merged_cells ws) h (conditional_formatting ws).

(** Lines 154-162: the regions are taken from a snapshot of the list. *)
Fixpoint clone_merges (row_num : Z) (snapshot : list MergedCellRange) (ws : Worksheet)
    : result Worksheet :=
  match snapshot with
  | [] => Ok ws
  | merged_range :: rest =>
      if (min_row (bounds merged_range) =? template_row) &&
         (max_row (bounds merged_range) =? template_row)
      then
        new_range <- CellRange_new (min_col (bounds merged_range)) row_num
                                   (max_col (bounds merged_range)) row_num ;;
        clone_merges row_num rest (merge_cells new_range ws)
      else clone_merges row_num rest ws
  end.

(** Lines 139-149: [for col in range(1, 31)]. *)
Definition clone_styles (row_num : Z) (ws : Worksheet) : Worksheet :=
  foldl (fun w col => clone_cell_style row_num col w) ws (seqZ 1 30).

(** Lines 154-162, on the regions registered when the loop starts. *)
Definition clone_template_merges (row_num : Z) (ws : Worksheet) : result Worksheet :=
  clone_merges row_num (merged_cells ws) ws.

(** Lines 137-162. *)
Definition clone_row (row_num : Z) (ws : Worksheet) : result Worksheet :=
  clone_template_merges row_num
    (copy_row_height row_num (clone_styles row_num (insert_rows row_num ws))).

(** [needle in v] *)
Fixpoint is_substring (needle s : string) : bool :=
  String.prefix needle s ||
  match s with
  | EmptyString => false
  | String _ s' => is_substring needle s'
  end.

Definition py_in (needle : string) (v : pyval) : result bool :=
  match v with
  | PStr s => Ok (is_substring needle s)
  | PList l => Ok (existsb (fun x => match x with
                                     | PStr t => String.eqb t needle
                                     | _ => false
                                     end) l)
  | PDict d => Ok (bool_decide (is_Some (d !! needle)))
  | PNone | PBool _ | PInt _ | PFloat _ => Raise TypeError
  end.

Definition flag (b : bool) : result pyval :=
  Ok (PStr (if b then "X" else EmptyString)).

(** [float(hs_code_data.get(key, 0))] *)
Definition hs_float (hs_code_data : pyval) (key : string) : result float :=
  match hs_code_data with
  | PDict d => py_float (dict_get d key (PInt 0))
  | _ => Raise AttributeError
  end.

Definition hs_field (hs_code_data : pyval) (key : string) : result pyval :=
  f <- hs_float hs_code_data key ;; Ok (PFloat f).

(** Lines 164-221. *)
Definition populate (row_num : Z) (item : gmap string pyval) (ws : Worksheet)
    : result Worksheet :=
  let requirements := dict_get item "requirements" (PStr EmptyString) in
  has_ex_registry <- py_in "EX REGISTRY FORM" requirements ;;
  has_azo_dye <- py_in "AZO DYE TEST" requirements ;;
  has_special <- py_in "SPECIAL CUSTOM" requirements ;;
  ws <- set_cell_values ws [
    (("A", row_num), text_field item "hts_code");
    (("B", row_num), text_field item "country_of_origin");
    (("C", row_num), text_field item "style");
    (("D", row_num), text_field item "color");
    (("E", row_num), text_field item "category");
    (("F", row_num), text_field item "description");
    (("G", row_num), text_field item "fabric_content");
    (("H", row_num), float_field item "cost");
    (("I", row_num), int_field item "unit_count");
    (("J", row_num), float_field item "total_value");
    (("K", row_num), text_field item "tr_hs_code");
    (("L", row_num), flag has_ex_registry);
    (("M", row_num), flag has_azo_dye);
    (("N", row_num), flag has_special);
    (("O", row_num), float_field item "transport_share");
    (("P", row_num), float_field item "insurance_share");
    (("Q", row_num), float_field item "storage_share")
  ] ;;
  let hs_code_data := dict_get item "hs_code_data" PNone in
  ws <- (if py_truthy hs_code_data then
           set_cell_values ws [
             (("R", row_num), hs_field hs_code_data "customs_tax_percent");
             (("S", row_num), hs_field hs_code_data "additional_customs_tax_percent");
             (("T", row_num), hs_field hs_code_data "kkdf_percent");
             (("U", row_num), hs_field hs_code_data "vat_percent")
           ]
         else
           set_cell_values ws [
             (("R", row_num), Ok (PInt 0));
             (("S", row_num), Ok (PInt 0));
             (("T", row_num), Ok (PInt 0));
             (("U", row_num), Ok (PInt 0))
           ]) ;;
  item_customs_tax <- py_float (dict_get item "customs_tax" (PInt 0)) ;;
  item_add_customs_tax <- py_float (dict_get item "additional_customs_tax" (PInt 0)) ;;
  item_kkdf <- py_float (dict_get item "kkdf" (PInt 0)) ;;
  item_vat <- py_float (dict_get item "vat" (PInt 0)) ;;
  item_total_tax_usd <- py_float (dict_get item "total_tax_usd" (PInt 0)) ;;
  vat_base_with_kkdf <- py_float (dict_get item "vat_base" (PInt 0)) ;;
  let vat_base_without_kkdf := PrimFloat.sub vat_base_with_kkdf item_kkdf in
  vat_percent <- (if py_truthy hs_code_data
                  then hs_float hs_code_data "vat_percent"
                  else Ok 0%float) ;;
  let vat_without_kkdf := PrimFloat.mul vat_base_without_kkdf vat_percent in
  set_cell_values ws [
    (("V", row_num), Ok (PFloat item_customs_tax));
    (("W", row_num), Ok (PFloat item_add_customs_tax));
    (("X", row_num), Ok (PFloat item_kkdf));
    (("Y", row_num), Ok (PFloat vat_base_with_kkdf));
    (("Z", row_num), Ok (PFloat vat_base_without_kkdf));
    (("AA", row_num), Ok (PFloat item_vat));
    (("AB", row_num), Ok (PFloat vat_without_kkdf));
    (("AC", row_num), Ok (PFloat item_total_tax_usd));
    (("AD", row_num), Ok (PFloat (PrimFloat.sub item_total_tax_usd item_kkdf)))
  ].

Definition gray_fill : PatternFill := mkPatternFill (Some "solid") "FFD3D3D3" "FFD3D3D3".
Definition white_fill : PatternFill := mkPatternFill (Some "solid") "FFFFFFFF" "FFFFFFFF".

(** Lines 226-233. *)
Definition band_fill (index : nat) : PatternFill :=
  if Nat.even index then gray_fill else white_fill.

Definition band (index : nat) (row_num : Z) (ws : Worksheet) : Worksheet :=
  foldl (fun w col => upd_cell (map_style (set_fill (band_fill index))) (row_num, col) w)
        ws (seqZ 1 30).

(** One turn of the loop. *)
Definition write_row (index : nat) (item : gmap string pyval) (ws : Worksheet)
    : result Worksheet :=
  let row_num := 10 + Z.of_nat index in
  ws1 <- (if (0 <? index)%nat then clone_row row_num ws else Ok ws) ;;
  ws2 <- populate row_num item ws1 ;;
  Ok (band index row_num ws2).

(** [for index, item in enumerate(items)], from [index] on. *)
Fixpoint write_rows_from (index : nat) (items : list (gmap string pyval))
    (ws : Worksheet) : result Worksheet :=
  match items with
  | [] => Ok ws
  | item :: rest =>
      ws' <- write_row index item ws ;;
      write_rows_from (S index) rest ws'
  end.

Definition write_rows (items : list (gmap string pyval)) (ws : Worksheet)
    : result Worksheet :=
  write_rows_from 0 items ws.

(** *** The formatting scrubber (lines 235-277) *)

Definition white_side : Side := mkSide (Some "thin") (Some "FFFFFFFF").
Definition white_border : Border := mkBorder white_side white_side white_side white_side.

(** [Rule(type='expression', dxf=dxf, stopIfTrue=False, formula=['TRUE'])] *)
Definition white_rule : Rule := mkRule "expression" white_border false ["TRUE"].

(** The body of the three clearing loops. *)
Definition scrub_cell (c : cell) : cell :=
  match map_style (fun st => set_fill no_fill (set_border Border_default st)) c with
  | Cell v st => Cell (if py_truthy v then PNone else v) st
  | MergedCell st => MergedCell st
  end.

Definition scrub_rows (r0 r1 c0 c1 : Z) (ws : Worksheet) : Worksheet :=
  foldl (fun w rc => upd_cell scrub_cell rc w) ws (box_coords r0 r1 c0 c1).

Definition scrub (last_data_row : Z) (ws : Worksheet) : result Worksheet :=
  let start_row := last_data_row + 1 in
  let ws1 := scrub_rows start_row (Z.min (ws_max_row ws) 6000) 1 30 ws in
  ws2 <- cf_add 1 start_row 30 6000 white_rule ws1 ;;
  let ws3 := scrub_rows 1 7 29 78 ws2 in
  ws4 <- cf_add 29 1 78 7 white_rule ws3 ;;
  let ws5 := scrub_rows 1 (Z.min (ws_max_row ws4) 6000) 31 78 ws4 in
  cf_add 31 1 78 6000 white_rule ws5.

(** *** [export_excel(data)] *)

Record Data := mkData {
  calculation : gmap string pyval;
  items : list (gmap string pyval)
}.

(** Everything up to the row loop. *)
Definition write_top (data : Data) (ws : Worksheet) : result Worksheet :=
  ws1 <- write_header (calculation data) ws ;;
  totals <- compute_totals (items data) ;;
  ws2 <- write_summary totals ws1 ;;
  write_titles ws2.

Definition output_path (calc : gmap string pyval) : string :=
  String.append "/tmp/tax_calculation_"
    (String.append (py_str (dict_get calc "reference" (PStr "export"))) ".xlsx").

(** The template is given as openpyxl loads it: once with the cached
    values of its formulas ([ws_data]) and once as the editable sheet
    ([ws]).  The result is the path returned together with the sheet
    saved there; a raised exception leaves no file. *)
Definition export_excel (data : Data) (ws_data ws : Worksheet)
    : result (string * Worksheet) :=
  let ws0 := prebake ws_data ws in
  ws1 <- write_top data ws0 ;;
  let last_data_row := 10 + Z.of_nat (length (items data)) - 1 in
  ws2 <- write_rows (items data) ws1 ;;
  ws3 <- scrub last_data_row ws2 ;;
  Ok (output_path (calculation data), ws3).

End Report.
End ExcelExport.

(** ** [excel_beyanname_export.py] *)

Module BeyannameExport.

(** Country code mapping: 2-letter -> 3-digit numeric code. *)
Definition default_table : list (string * pyval) := [
  ("CN", PStr "720"); ("ID", PStr "700"); ("KH", PStr "696"); ("VN", PStr "690");
  ("US", PStr "400"); ("TW", PStr "736"); ("IT", PStr "005"); ("RO", PStr "066");
  ("JO", PStr "628"); ("NI", PStr "432"); ("AQ", PStr "891"); ("TH", PStr "680");
  ("LK", PStr "669"); ("AL", PStr "070"); ("SG", PStr "706"); ("GT", PStr "416");
  ("CO", PStr "480"); ("CM", PStr "302"); ("PH", PStr "708"); ("TR", PStr "052");
  ("CA", PStr "404"); ("SV", PStr "428"); ("HK", PStr "740")
].

(** The module-level names of the script.  The table is a mutable dict
    object in Python, so it is threaded through the export as state. *)
Record Globals := mkGlobals {
  DEFAULT_COUNTRY_CODE_MAPPING : gmap string pyval
}.

Definition initial_globals : Globals := mkGlobals (list_to_map default_table).

(** [{**a, **b}]: a new dict, the entries of [b] over those of [a]. *)
Definition dict_merge (a : gmap string pyval) (b : pyval) : result (gmap string pyval) :=
  match b with
  | PDict d => Ok (d ∪ a)
  | _ => Raise TypeError
  end.

(** [str.upper()] on the ASCII letters; other bytes are kept. *)
Definition upper_ascii (a : ascii) : ascii :=
  let n := nat_of_ascii a in
  if ((97 <=? n) && (n <=? 122))%nat then ascii_of_nat (n - 32) else a.

Fixpoint upper (s : string) : string :=
  match s with
  | EmptyString => EmptyString
  | String a s' => String (upper_ascii a) (upper s')
  end.

(** Line 86. *)
Definition country_code_3digit (country_code_mapping : gmap string pyval)
    (country_of_origin : pyval) : result pyval :=
  if py_truthy country_of_origin then
    match country_of_origin with
    | PStr s => Ok (dict_get country_code_mapping (upper s) (PStr EmptyString))
    | _ => Raise AttributeError
    end
  else Ok (PStr EmptyString).

(** [d.get(key, '') if d else ''] for the nested objects. *)
Definition nested_get (d : pyval) (key : string) : result pyval :=
  if py_truthy d then
    match d with
    | PDict m => Ok (dict_get m key (PStr EmptyString))
    | _ => Raise AttributeError
    end
  else Ok (PStr EmptyString).

(** [' '.join(parts)] *)
Fixpoint join_parts (parts : list pyval) : result string :=
  match parts with
  | [] => Ok EmptyString
  | PStr s :: rest =>
      t <- join_parts rest ;;
      Ok (match rest with
          | [] => s
          | _ => String.append s (String.append " " t)
          end)
  | _ :: _ => Raise TypeError
  end.

(** [ws[ref] = value] *)
Definition ws_setitem (ws : Worksheet) (ref : cell_ref) (value : pyval) : result Worksheet :=
  set_value (coordinate_to_tuple ref) value ws.

Fixpoint ws_setitems (ws : Worksheet) (writes : list (cell_ref * pyval)) : result Worksheet :=
  match writes with
  | [] => Ok ws
  | (ref, v) :: rest => ws' <- ws_setitem ws ref v ;; ws_setitems ws' rest
  end.

Definition set_number_format (s : string) (st : Style) : Style :=
  mkStyle (font st) (border st) (fill st) s (protection st) (alignment st).

Record Data := mkData {
  customMappings : option pyval;
  items : list (gmap string pyval);
  calculation : gmap string pyval;
  timestamp : option pyval
}.

Section Declaration.
Context {builtins : PyBuiltins}.

(** [cost * unit_count], a float times an int. *)
Definition invoice_value (cost : float) (unit_count : Z) : result float :=
  u <- float_of_int unit_count ;; Ok (PrimFloat.mul cost u).

(** Lines 61-125 for one item. *)
Definition write_item (country_code_mapping : gmap string pyval) (row_num : Z)
    (item : gmap string pyval) (ws : Worksheet) : result Worksheet :=
  let tr_hs_code := dict_get item "tr_hs_code" (PStr EmptyString) in
  cost <- py_float (dict_get item "cost" (PInt 0)) ;;
  unit_count <- py_int (dict_get item "unit_count" (PInt 0)) ;;
  total_value <- invoice_value cost unit_count ;;
  let hs_code_data := dict_get item "hs_code_data" (PDict ∅) in
  unit <- nested_get hs_code_data "unit" ;;
  description_tr <- nested_get hs_code_data "description_tr" ;;
  vat_percent <- (if py_truthy hs_code_data then
                    match hs_code_data with
                    | PDict m =>
                        d <- py_float (dict_get m "vat_percent" (PInt 0)) ;;
                        Ok (PFloat (PrimFloat.mul d 100%float))
                    | _ => Raise AttributeError
                    end
                  else Ok (PInt 0)) ;;
  let product_data := dict_get item "product_data" (PDict ∅) in
  brand <- nested_get product_data "brand" ;;
  item_description <- nested_get product_data "item_description" ;;
  let country_of_origin := dict_get item "country_of_origin" (PStr EmptyString) in
  code <- country_code_3digit country_code_mapping country_of_origin ;;
  let style := dict_get item "style" (PStr EmptyString) in
  let fabric_content := dict_get item "fabric_content" (PStr EmptyString) in
  tanim <- join_parts (filter (fun v => py_truthy v = true)
                         [style; description_tr; item_description; fabric_content]) ;;
  ws <- ws_setitems ws [
    (("A", row_num), tr_hs_code);
    (("B", row_num), PFloat total_value);
    (("C", row_num), code)
  ] ;;
  let ws := upd_cell (map_style (set_number_format "@")) (coordinate_to_tuple ("C", row_num)) ws in
  ws_setitems ws [
    (("D", row_num), unit);
    (("E", row_num), PStr "1");
    (("F", row_num), PStr "BI");
    (("G", row_num), brand);
    (("H", row_num), PInt unit_count);
    (("I", row_num), PStr "K1");
    (("J", row_num), PStr "9");
    (("K", row_num), PStr EmptyString);
    (("L", row_num), PStr "11");
    (("M", row_num), PStr tanim);
    (("N", row_num), vat_percent);
    (("O", row_num), PStr "-")
  ].

Definition start_row : Z := 2.

Fixpoint write_items_from (mapping : gmap string pyval) (index : nat)
    (items : list (gmap string pyval)) (ws : Worksheet) : result Worksheet :=
  match items with
  | [] => Ok ws
  | item :: rest =>
      ws' <- write_item mapping (start_row + Z.of_nat index) item ws ;;
      write_items_from mapping (S index) rest ws'
  end.

Definition output_path (data : Data) : string :=
  String.append "/tmp/beyanname_"
    (String.append (py_str (dict_get (calculation data) "reference" (PStr "export")))
       (String.append "_"
          (String.append (py_str (default (PStr EmptyString) (timestamp data))) ".xlsx"))).

(** [export_beyanname_excel(data)] on the loaded template [ws]: the
    result, and the module globals as the call leaves them. *)
Definition export_beyanname_excel (data : Data) (ws : Worksheet) (g : Globals)
    : result (string * Worksheet) * Globals :=
  let custom_mappings := default (PDict ∅) (customMappings data) in
  (country_code_mapping <- dict_merge (DEFAULT_COUNTRY_CODE_MAPPING g) custom_mappings ;;
   ws' <- write_items_from country_code_mapping 0 (items data) ws ;;
   Ok (output_path data, ws'),
   g).

End Declaration.
End BeyannameExport.

(** ** Vocabulary of the properties *)

Import ExcelExport.

(** Where a write to [rc] lands: the start cell of the first registered
    region holding [rc], or [rc] itself. *)
Definition resolve (ws : Worksheet) (rc : coord) : coord :=
  match find (fun r => in_range rc (bounds r)) (merged_cells ws) with
  | Some r => start_cell r
  | None => rc
  end.

Definition is_merged_cell (ws : Worksheet) (rc : coord) : Prop :=
  exists st, cells ws !! rc = Some (MergedCell st).

(** [t] lies in no merged region, is the start cell of none, and is not
    a left-over [MergedCell]: writes to [t] land on [t], and no other
    write does. *)
Definition free (ws : Worksheet) (t : coord) : Prop :=
  (forall r, In r (merged_cells ws) ->
             in_range t (bounds r) = false /\ start_cell r <> t) /\
  ~ is_merged_cell ws t.


(** A call of a [set_cell_values] run that does not name [t]. *)
Definition misses (t : coord) (call : cell_ref * result pyval) : Prop :=
  coordinate_to_tuple (fst call) <> t.

Definition is_merged (c : cell) : bool :=
  match c with
  | Cell _ _ => false
  | MergedCell _ => true
  end.

(** A cell mutation that touches the style only. *)
Definition style_only (g : cell -> cell) : Prop :=
  forall c, value_of (g c) = value_of c /\ is_merged (g c) = is_merged c.

(** [ws'] is [ws] with cells restyled on row [hot] and cells created on
    the template row: same regions, same values and kinds everywhere,
    same cells off these two rows. *)
Record restyled (hot : Z) (ws ws' : Worksheet) : Prop := mkRestyled {
  rs_merged : merged_cells ws' = merged_cells ws;
  rs_far : forall rc : coord, fst rc <> hot -> fst rc <> template_row ->
             cells ws' !! rc = cells ws !! rc;
  rs_get : forall rc : coord, fst rc <> hot -> get_cell ws' rc = get_cell ws rc;
  rs_kind : forall rc : coord, is_merged (get_cell ws' rc) = is_merged (get_cell ws rc);
  rs_value : forall rc : coord, cell_value ws' rc = cell_value ws rc;
  rs_cf : conditional_formatting ws' = conditional_formatting ws
}.

(** Column [c] is clear of merged regions from the template row down:
    no region covers it there and no start cell sits in it. *)
Definition col_free (ws : Worksheet) (c : Z) : Prop :=
  forall r, In r (merged_cells ws) ->
    (forall row, template_row <= row -> in_range (row, c) (bounds r) = false) /\
    (template_row <= fst (start_cell r) -> snd (start_cell r) <> c).

(** The regions the row cloner looks for, and what it makes of them. *)
Definition on_template_row (b : CellRange) : bool :=
  (min_row b =? template_row) && (max_row b =? template_row).

Definition clone_of (row : Z) (b : CellRange) : CellRange :=
  mkCellRange (min_col b) row (max_col b) row.

(** No range of the list is covered by an earlier one. *)
Fixpoint no_nesting (l : list CellRange) : Prop :=
  match l with
  | [] => True
  | a :: rest => (forall b, In b rest -> range_subset b a = false) /\ no_nesting rest
  end.

(** [ws'] is [ws] after [set_cell_value] calls that all name cells of
    row [row]. *)
Record wrote_row (row : Z) (ws ws' : Worksheet) : Prop := mkWroteRow {
  wr_merged : merged_cells ws' = merged_cells ws;
  wr_style : forall rc : coord, cell_style ws' rc = cell_style ws rc;
  wr_kind : forall rc : coord, is_merged (get_cell ws' rc) = is_merged (get_cell ws rc);
  wr_free : forall t : coord, free ws t -> fst t <> row -> cells ws' !! t = cells ws !! t;
  wr_below : (forall r, In r (merged_cells ws) -> fst (start_cell r) <= row) ->
             forall rc : coord, row < fst rc -> cells ws' !! rc = cells ws !! rc;
  wr_cf : conditional_formatting ws' = conditional_formatting ws
}.

Definition on_row (row : Z) (call : cell_ref * result pyval) : Prop :=
  snd (fst call) = row.

(** [float(hs_code_data.get('vat_percent', 0)) if hs_code_data else 0]
    (line 210). *)
Definition item_vat_percent `{PyBuiltins} (item : gmap string pyval) : result float :=
  let hs_code_data := dict_get item "hs_code_data" PNone in
  if py_truthy hs_code_data then hs_float hs_code_data "vat_percent" else Ok 0%float.

(** The bounds of the regions that lie exactly on the template row. *)
Definition template_regions (ws : Worksheet) : list CellRange :=
  List.filter on_template_row (bounds <$> merged_cells ws).

(** The clones due for [n] items: one copy of every template-row
    region on each of the rows 11, ..., 10 + n - 1. *)
Definition clones_for (n : nat) (regions : list CellRange) : list CellRange :=
  i ← seq 1 (n - 1); clone_of (10 + Z.of_nat i) <$> regions.

(** [ws'] has the regions, the cell kinds, the styles and the
    conditional formats of [ws]; values may differ. *)
Record same_layout (ws ws' : Worksheet) : Prop := mkSameLayout {
  sl_merged : merged_cells ws' = merged_cells ws;
  sl_kind : forall rc : coord, is_merged (get_cell ws' rc) = is_merged (get_cell ws rc);
  sl_style : forall rc : coord, cell_style ws' rc = cell_style ws rc;
  sl_cf : conditional_formatting ws' = conditional_formatting ws
}.

(** What the clearing loops leave behind: default border, no fill, and
    no value that Python takes for true. *)
Definition scrubbed (c : cell) : Prop :=
  border (style_of c) = Border_default /\
  fill (style_of c) = no_fill /\
  py_truthy (value_of c) = false.

(** The three regions named in the conditional formats:
    A[start_row]:AD6000, AC1:BZ7 and AE1:BZ6000. *)
Definition in_box (r0 r1 c0 c1 : Z) (rc : coord) : Prop :=
  r0 <= fst rc <= r1 /\ c0 <= snd rc <= c1.

Definition scrub_region_1 (n : nat) : coord -> Prop := in_box (10 + Z.of_nat n) 6000 1 30.
Definition scrub_region_2 : coord -> Prop := in_box 1 7 29 78.
Definition scrub_region_3 : coord -> Prop := in_box 1 6000 31 78.

(** The cells of the data rows of [n] items. *)
Definition data_rows (n : nat) : coord -> Prop := in_box 10 (10 + Z.of_nat n - 1) 1 30.

(** The numeric fields of an item: those coerced with [float], and
    the percentages read from its [hs_code_data] ([unit_count] is
    coerced with [int]). *)
Definition float_keys : list string := [
  "cost"; "total_value"; "transport_share"; "insurance_share"; "storage_share";
  "customs_tax"; "additional_customs_tax"; "kkdf"; "vat"; "total_tax_usd";
  "total_tax_tl"; "vat_base"
].

Definition percent_keys : list string := [
  "customs_tax_percent"; "additional_customs_tax_percent"; "kkdf_percent"; "vat_percent"
].

(** Some numeric field of the item is present and cannot be coerced. *)
Definition uncoercible `{PyBuiltins} (item : gmap string pyval) : Prop :=
  (exists key v e, key ∈ float_keys /\ item !! key = Some v /\ py_float v = Raise e) \/
  (exists v e, item !! "unit_count" = Some v /\ py_int v = Raise e) \/
  (exists d key v e, item !! "hs_code_data" = Some (PDict d) /\ key ∈ percent_keys /\
                     d !! key = Some v /\ py_float v = Raise e).

(** ** Sample data for the concrete checks *)

Definition empty_sheet : Worksheet := mkWorksheet ∅ [] ∅ [].

(** A sheet whose only region is A10:C10. *)
Definition sheet_a10_c10 : Worksheet := merge_cells (mkCellRange 1 10 3 10) empty_sheet.

Definition no_parsing : PyBuiltins := {|
  float_of_string := fun _ => None;
  int_of_string := fun _ => None;
  py_str := fun v => match v with PStr s => s | _ => EmptyString end;
  iso_to_dmy := fun _ => None
|}.

(** The sheet and the path of a finished export. *)
Definition saved_sheet (r : result (string * Worksheet)) : Worksheet :=
  match r with
  | Ok (_, ws) => ws
  | Raise _ => empty_sheet
  end.

Definition saved_path (r : result (string * Worksheet)) : string :=
  match r with
  | Ok (p, _) => p
  | Raise _ => EmptyString
  end.







Definition is_ok {A} (r : result A) : bool :=
  match r with
  | Ok _ => true
  | Raise _ => false
  end.

(** One declaration item whose [total_value] is not cost times units. *)
Definition odd_total_item : gmap string pyval :=
  {[ "cost" := PFloat 10%float; "unit_count" := PInt 5; "total_value" := PFloat 999%float ]}.

Definition odd_total_data : BeyannameExport.Data :=
  BeyannameExport.mkData None [odd_total_item] ∅ None.

Definition odd_total_export : result (string * Worksheet) :=
  fst (BeyannameExport.export_beyanname_excel (builtins := no_parsing)
         odd_total_data empty_sheet BeyannameExport.initial_globals).

(** Scenario D of the specification. *)
Definition scenario_d_item : gmap string pyval :=
  {[ "vat_base" := PFloat 100%float; "kkdf" := PFloat 5%float;
     "hs_code_data" := PDict {[ "vat_percent" := PFloat 0x1.999999999999ap-4%float ]} ]}.

Definition scenario_d : result (string * Worksheet) :=
  export_excel (builtins := no_parsing) (mkData ∅ [scenario_d_item]) empty_sheet empty_sheet.



(** An item whose [cost] is JSON [null]. *)
Definition null_cost_item : gmap string pyval := {[ "cost" := PNone ]}.

(** Two items without any field, exported on the A10:C10 sheet. *)
Definition two_blank_items : Data := mkData ∅ [∅; ∅].

Definition two_blank_rows : result (string * Worksheet) :=
  export_excel (builtins := no_parsing) two_blank_items sheet_a10_c10 sheet_a10_c10.

(** ** Basic facts about the worksheet operations *)


Lemma bind_ok {A B} (m : result A) (k : A -> result B) (b : B) :
  bind m k = Ok b -> exists a, m = Ok a /\ k a = Ok b.
Proof. destruct m as [a|e]; simpl; [eauto | discriminate]. Qed.

Ltac bind_inv H :=
  let a := fresh "a" in
  let Ha := fresh "Ha" in
  apply bind_ok in H; destruct H as (a & Ha & H).

Lemma cells_upd_cell g rc ws rc' :
  cells (upd_cell g rc ws) !! rc' =
  if decide (rc = rc') then Some (g (get_cell ws rc)) else cells ws !! rc'.
Proof.
  unfold upd_cell; simpl. case_decide; subst.
  - by rewrite lookup_insert_eq.
  - by rewrite lookup_insert_ne.
Qed.

Lemma get_cell_upd_cell g rc ws rc' :
  get_cell (upd_cell g rc ws) rc' =
  if decide (rc = rc') then g (get_cell ws rc) else get_cell ws rc'.
Proof. unfold get_cell at 1. rewrite cells_upd_cell. by case_decide. Qed.

Lemma merged_upd_cell g rc ws : merged_cells (upd_cell g rc ws) = merged_cells ws.
Proof. reflexivity. Qed.

Lemma set_value_inv rc v ws ws' :
  set_value rc v ws = Ok ws' ->
  exists v0 st, get_cell ws rc = Cell v0 st /\
                ws' = with_cells (<[rc := Cell v st]> (cells ws)) ws.
Proof.
  unfold set_value. destruct (get_cell ws rc) as [v0 st|st]; [|discriminate].
  intros [= <-]. eauto.
Qed.

Lemma set_value_raise rc v ws e :
  set_value rc v ws = Raise e -> e = AttributeError /\ is_merged_cell ws rc.
Proof.
  unfold set_value, get_cell, is_merged_cell.
  destruct (cells ws !! rc) as [[v0 st|st]|]; simpl; try discriminate.
  intros [= <-]. eauto.
Qed.

(** A successful [set_cell_value] keeps the regions, and either leaves
    the sheet alone or stores the value at the resolved coordinate,
    keeping the style found there. *)
Lemma set_cell_value_inv ws ref v ws' :
  set_cell_value ws ref v = Ok ws' ->
  ws' = ws \/
  exists v0 st, get_cell ws (resolve ws (coordinate_to_tuple ref)) = Cell v0 st /\
    ws' = with_cells (<[resolve ws (coordinate_to_tuple ref) := Cell v st]> (cells ws)) ws.
Proof.
  unfold set_cell_value, resolve.
  destruct (find _ (merged_cells ws)) as [r|].
  - intros H. right. by apply set_value_inv.
  - destruct (set_value (coordinate_to_tuple ref) v ws) as [w|e] eqn:E.
    + intros [= <-]. right. by apply set_value_inv.
    + destruct e; try discriminate. intros [= <-]. by left.
Qed.

Lemma set_cell_value_merged ws ref v ws' :
  set_cell_value ws ref v = Ok ws' -> merged_cells ws' = merged_cells ws.
Proof.
  intros H. apply set_cell_value_inv in H as [->|(v0 & st & _ & ->)]; reflexivity.
Qed.

Lemma set_cell_value_style ws ref v ws' rc :
  set_cell_value ws ref v = Ok ws' -> cell_style ws' rc = cell_style ws rc.
Proof.
  intros H. apply set_cell_value_inv in H as [->|(v0 & st & Hc & ->)]; [done|].
  unfold cell_style, get_cell in *; simpl.
  destruct (decide (resolve ws (coordinate_to_tuple ref) = rc)) as [<-|Hne].
  - rewrite lookup_insert_eq; simpl. by rewrite Hc.
  - by rewrite lookup_insert_ne.
Qed.

Lemma find_none_forall {A} (p : A -> bool) (l : list A) :
  find p l = None <-> (forall x, In x l -> p x = false).
Proof.
  split.
  - intros H x Hx. by apply (find_none p l H).
  - induction l as [|a l IH]; simpl; [done|]. intros H.
    rewrite (H a) by auto. apply IH. auto.
Qed.

Lemma resolve_free ws t : free ws t -> resolve ws t = t.
Proof.
  intros [Hr _]. unfold resolve.
  destruct (find _ _) as [r|] eqn:E; [|done].
  apply find_some in E as [Hin Hrng]. destruct (Hr r Hin) as [Hf _]. congruence.
Qed.

Lemma resolve_other ws t rc : free ws t -> rc <> t -> resolve ws rc <> t.
Proof.
  intros [Hr _] Hne. unfold resolve.
  destruct (find _ _) as [r|] eqn:E; [|done].
  apply find_some in E as [Hin _]. by destruct (Hr r Hin).
Qed.

Lemma free_with_cell ws t rc v v0 st :
  free ws t -> get_cell ws rc = Cell v0 st ->
  free (with_cells (<[rc := Cell v st]> (cells ws)) ws) t.
Proof.
  intros [Hr Hm] Hc. split; [exact Hr|].
  intros [st' Hst']. simpl in Hst'.
  destruct (decide (rc = t)) as [->|Hne].
  - rewrite lookup_insert_eq in Hst'. discriminate.
  - rewrite lookup_insert_ne in Hst' by done. apply Hm. by exists st'.
Qed.

Lemma set_cell_value_free_other ws ref v ws' t :
  free ws t -> coordinate_to_tuple ref <> t ->
  set_cell_value ws ref v = Ok ws' ->
  cells ws' !! t = cells ws !! t /\ free ws' t.
Proof.
  intros Hfree Hne H.
  apply set_cell_value_inv in H as [->|(v0 & st & Hc & ->)]; [done|].
  split; [|by eapply free_with_cell].
  simpl. rewrite lookup_insert_ne; [done|]. by apply resolve_other.
Qed.

Lemma set_cell_value_free_hit ws ref v t :
  free ws t -> coordinate_to_tuple ref = t ->
  exists ws' st, set_cell_value ws ref v = Ok ws' /\
                 cells ws' !! t = Some (Cell v st) /\ free ws' t /\
                 (forall rc, rc <> t -> cells ws' !! rc = cells ws !! rc).
Proof.
  intros Hfree Heq. pose proof Hfree as [Hr Hm].
  unfold set_cell_value. rewrite Heq.
  assert (find (fun r => in_range t (bounds r)) (merged_cells ws) = None) as ->.
  { apply find_none_forall. intros r Hin. by destruct (Hr r Hin). }
  unfold set_value.
  destruct (get_cell ws t) as [v0 st|st] eqn:Hc.
  - eexists _, st. split; [reflexivity|]. split; [|split].
    + simpl. by rewrite lookup_insert_eq.
    + by eapply free_with_cell.
    + intros rc Hne. simpl. by rewrite lookup_insert_ne.
  - exfalso. apply Hm. unfold get_cell in Hc.
    destruct (cells ws !! t) as [[?|st']|] eqn:E; simpl in Hc; try discriminate.
    by exists st'.
Qed.

Lemma set_cell_values_merged ws calls ws' :
  set_cell_values ws calls = Ok ws' -> merged_cells ws' = merged_cells ws.
Proof.
  revert ws. induction calls as [|[ref arg] calls IH]; intros ws H; simpl in H.
  - by injection H as <-.
  - bind_inv H. bind_inv H. rewrite (IH _ H). by eapply set_cell_value_merged.
Qed.

Lemma set_cell_values_style ws calls ws' rc :
  set_cell_values ws calls = Ok ws' -> cell_style ws' rc = cell_style ws rc.
Proof.
  revert ws. induction calls as [|[ref arg] calls IH]; intros ws H; simpl in H.
  - by injection H as <-.
  - bind_inv H. bind_inv H. rewrite (IH _ H). by eapply set_cell_value_style.
Qed.

Lemma set_cell_values_free_miss ws calls ws' t :
  free ws t -> Forall (misses t) calls ->
  set_cell_values ws calls = Ok ws' ->
  cells ws' !! t = cells ws !! t /\ free ws' t.
Proof.
  revert ws. induction calls as [|[ref arg] calls IH]; intros ws Hfree Hall H; simpl in H.
  - by injection H as <-.
  - bind_inv H. bind_inv H. inversion Hall as [|? ? Hm Hall']; subst.
    destruct (set_cell_value_free_other _ _ _ _ _ Hfree Hm Ha0) as [E1 Hfree'].
    destruct (IH _ Hfree' Hall' H) as [E2 ?]. split; [congruence|done].
Qed.

Lemma set_cell_values_free_hit ws before ref arg after ws' t :
  free ws t -> Forall (misses t) before -> Forall (misses t) after ->
  coordinate_to_tuple ref = t ->
  set_cell_values ws (before ++ (ref, arg) :: after) = Ok ws' ->
  exists v st, arg = Ok v /\ cells ws' !! t = Some (Cell v st) /\ free ws' t.
Proof.
  revert ws. induction before as [|[ref0 arg0] before IH];
    intros ws Hfree Hb Ha Heq H; simpl in H.
  - bind_inv H. bind_inv H.
    destruct (set_cell_value_free_hit ws ref a t Hfree Heq) as (w & st & Hw & Hc & Hf & _).
    rewrite Hw in Ha1. injection Ha1 as <-.
    destruct (set_cell_values_free_miss _ _ _ _ Hf Ha H) as [E Hf'].
    exists a, st. split; [done|]. split; [congruence|done].
  - bind_inv H. bind_inv H. inversion Hb as [|? ? Hm Hb']; subst.
    destruct (set_cell_value_free_other _ _ _ _ _ Hfree Hm Ha1) as [_ Hfree'].
    by apply (IH _ Hfree' Hb' Ha eq_refl H).
Qed.

(** *** The coordinates of a box *)

Lemma elem_of_box_coords r0 r1 c0 c1 (rc : coord) :
  rc ∈ box_coords r0 r1 c0 c1 <->
  r0 <= fst rc <= r1 /\ c0 <= snd rc <= c1.
Proof.
  unfold box_coords. rewrite list_elem_of_bind. split.
  - intros (r & Hc & Hr). apply list_elem_of_fmap in Hc as (c & -> & Hc).
    apply elem_of_seqZ in Hr, Hc. simpl. lia.
  - intros [Hr Hc]. exists (fst rc). split.
    + apply list_elem_of_fmap. exists (snd rc). split; [by destruct rc|].
      apply elem_of_seqZ. lia.
    + apply elem_of_seqZ. lia.
Qed.

Lemma in_range_spec (rc : coord) (r : CellRange) :
  in_range rc r = true <->
  min_row r <= fst rc <= max_row r /\ min_col r <= snd rc <= max_col r.
Proof. unfold in_range. rewrite !andb_true_iff, !Z.leb_le. lia. Qed.

Lemma elem_of_range_cells (rc : coord) (r : CellRange) :
  rc ∈ range_cells r <-> in_range rc r = true.
Proof. unfold range_cells. by rewrite elem_of_box_coords, in_range_spec. Qed.

Lemma range_cells_head (r : CellRange) :
  min_row r <= max_row r -> min_col r <= max_col r ->
  exists rest, range_cells r = top_left_of r :: rest /\ top_left_of r ∉ rest.
Proof.
  intros Hr Hc. unfold range_cells, box_coords, top_left_of.
  rewrite (seqZ_cons (min_row r)) by lia. csimpl.
  set (below := _ ≫= _).
  assert (forall rc : coord, rc ∈ below -> min_row r < fst rc) as Hbelow.
  { intros rc H. apply list_elem_of_bind in H as (y & H & Hy).
    apply list_elem_of_fmap in H as (c & -> & _). apply elem_of_seqZ in Hy. simpl. lia. }
  clearbody below.
  rewrite (seqZ_cons (min_col r)) by lia. csimpl.
  eexists. split; [reflexivity|].
  rewrite elem_of_app. intros [H|H].
  - apply list_elem_of_fmap in H as (c & [= Hc'] & H). apply elem_of_seqZ in H. lia.
  - apply Hbelow in H. simpl in H. lia.
Qed.

Lemma elem_of_tail_range_cells (rc : coord) (r : CellRange) :
  rc ∈ tail (range_cells r) <-> in_range rc r = true /\ rc <> top_left_of r.
Proof.
  destruct (decide (min_row r <= max_row r /\ min_col r <= max_col r)) as [[Hr Hc]|Hn].
  - destruct (range_cells_head r Hr Hc) as (rest & E & Hnot).
    rewrite <- elem_of_range_cells, E. simpl. rewrite elem_of_cons. split.
    + intros H. split; [by right|]. intros ->. done.
    + intros [[->|H] Hne]; done.
  - split.
    + intros H. assert (rc ∈ range_cells r) as H'.
      { destruct (range_cells r); [by apply elem_of_nil in H|]. by right. }
      apply elem_of_range_cells, in_range_spec in H'. lia.
    + intros [H _]. apply in_range_spec in H. lia.
Qed.

Lemma foldl_insert_lookup {V} (l : list coord) (m : gmap (Z * Z) V) (x : V) (rc : coord) :
  foldl (fun m k => <[k := x]> m) m l !! rc =
  if decide (rc ∈ l) then Some x else m !! rc.
Proof.
  revert m. induction l as [|k l IH]; intros m.
  - rewrite decide_False; [done|]. by intros H%elem_of_nil.
  - cbn [foldl]. rewrite IH. destruct (decide (rc ∈ l)) as [Hin|Hnin].
    + rewrite decide_True; [done|by right].
    + destruct (decide (k = rc)) as [->|Hne].
      * rewrite lookup_insert_eq. rewrite decide_True; [done|by left].
      * rewrite lookup_insert_ne by done. rewrite decide_False; [done|].
        rewrite elem_of_cons. intros [?|?]; [congruence|done].
Qed.

(** The cells after [merge_cells]. *)
Lemma cells_merge_cells cr ws rc :
  cells (merge_cells cr ws) !! rc =
  if decide (in_range rc cr = true /\ rc <> top_left_of cr)
  then Some (MergedCell default_style)
  else if decide (top_left_of cr = rc) then Some (get_cell ws (top_left_of cr))
  else cells ws !! rc.
Proof.
  unfold merge_cells; simpl. rewrite foldl_insert_lookup.
  destruct (decide (rc ∈ tail (range_cells cr))) as [Hin|Hnin].
  - rewrite decide_True; [done|by apply elem_of_tail_range_cells].
  - rewrite decide_False by (by rewrite <- elem_of_tail_range_cells).
    case_decide; subst.
    + by rewrite lookup_insert_eq.
    + by rewrite lookup_insert_ne.
Qed.

Lemma merged_merge_cells cr ws :
  merged_cells (merge_cells cr ws) =
  if existsb (fun r => range_subset cr (bounds r)) (merged_cells ws)
  then merged_cells ws else merged_cells ws ++ [MergedCellRange_new cr].
Proof. reflexivity. Qed.


(** ** The merge-aware cell writer *)






(** ** Row insertion *)

#[local] Instance shift_row_inj idx : Inj (=) (=) (shift_row idx).
Proof.
  intros [r1 c1] [r2 c2]. unfold shift_row; simpl.
  destruct (Z.leb_spec idx r1), (Z.leb_spec idx r2); intros [= ? ?]; subst; f_equal; lia.
Qed.

Lemma cells_insert_rows_above idx ws (rc : coord) :
  fst rc < idx -> cells (insert_rows idx ws) !! rc = cells ws !! rc.
Proof.
  intros H. cbn [insert_rows cells].
  replace rc with (shift_row idx rc) at 1.
  - apply (lookup_kmap (shift_row idx)).
  - unfold shift_row. destruct (Z.leb_spec idx (fst rc)); [lia|done].
Qed.

Lemma cells_insert_rows_below idx ws (r c : Z) :
  idx <= r -> cells (insert_rows idx ws) !! (r + 1, c) = cells ws !! (r, c).
Proof.
  intros H. cbn [insert_rows cells].
  replace (r + 1, c) with (shift_row idx (r, c)).
  - apply (lookup_kmap (shift_row idx)).
  - unfold shift_row; simpl. destruct (Z.leb_spec idx r); [done|lia].
Qed.

Lemma cells_insert_rows_at idx ws (c : Z) :
  cells (insert_rows idx ws) !! (idx, c) = None.
Proof.
  cbn [insert_rows cells]. apply (lookup_kmap_None (shift_row idx)).
  intros [r c'] E. unfold shift_row in E; simpl in E.
  destruct (Z.leb_spec idx r); injection E as ? ?; lia.
Qed.

Lemma get_cell_insert_rows_above idx ws (rc : coord) :
  fst rc < idx -> get_cell (insert_rows idx ws) rc = get_cell ws rc.
Proof. intros H. unfold get_cell. by rewrite cells_insert_rows_above. Qed.

Lemma is_merged_cell_insert_rows_above idx ws (rc : coord) :
  fst rc < idx -> is_merged_cell (insert_rows idx ws) rc <-> is_merged_cell ws rc.
Proof. intros H. unfold is_merged_cell. by rewrite cells_insert_rows_above. Qed.

Lemma in_merged_insert_rows idx ws r :
  In r (merged_cells (insert_rows idx ws)) ->
  exists r0, In r0 (merged_cells ws) /\ bounds r = bounds r0 /\
             start_cell r = shift_row idx (start_cell r0).
Proof.
  cbn [insert_rows merged_cells]. intros H.
  apply list_elem_of_In, list_elem_of_fmap in H as (r0 & -> & H).
  exists r0. split; [by apply list_elem_of_In|done].
Qed.

Lemma bounds_insert_rows idx ws :
  bounds <$> merged_cells (insert_rows idx ws) = bounds <$> merged_cells ws.
Proof.
  cbn [insert_rows merged_cells]. rewrite <- list_fmap_compose.
  by apply list_fmap_ext.
Qed.

Lemma free_insert_rows idx ws (t : coord) :
  fst t < idx -> free ws t -> free (insert_rows idx ws) t.
Proof.
  intros Hlt [Hr Hm]. split.
  - intros r Hin. apply in_merged_insert_rows in Hin as (r0 & Hin & -> & ->).
    destruct (Hr r0 Hin) as [Hb Hs]. split; [done|].
    unfold shift_row. destruct (Z.leb_spec idx (fst (start_cell r0))); [|done].
    intros E. rewrite <- E in Hlt. simpl in Hlt. lia.
  - by rewrite is_merged_cell_insert_rows_above.
Qed.

(** ** Restyling *)

Lemma is_merged_cell_iff ws rc :
  is_merged_cell ws rc <-> is_merged (get_cell ws rc) = true.
Proof.
  unfold is_merged_cell, get_cell.
  destruct (cells ws !! rc) as [[v st|st]|]; simpl; split;
    try done; try (intros [? [=]]); eauto.
Qed.

Lemma restyled_refl hot ws : restyled hot ws ws.
Proof. by constructor. Qed.

Lemma restyled_trans hot ws1 ws2 ws3 :
  restyled hot ws1 ws2 -> restyled hot ws2 ws3 -> restyled hot ws1 ws3.
Proof.
  intros [A1 A2 A3 A4 A5 A6] [B1 B2 B3 B4 B5 B6]. constructor.
  - congruence.
  - intros rc H1 H2. rewrite B2, A2; done.
  - intros rc H. rewrite B3, A3; done.
  - intros rc. by rewrite B4, A4.
  - intros rc. by rewrite B5, A5.
  - congruence.
Qed.

Lemma restyled_upd_hot g (r c : Z) ws :
  style_only g -> restyled r ws (upd_cell g (r, c) ws).
Proof.
  intros Hg. constructor.
  - reflexivity.
  - intros rc H1 H2. rewrite cells_upd_cell. rewrite decide_False; [done|].
    intros <-. done.
  - intros rc H. rewrite get_cell_upd_cell. rewrite decide_False; [done|].
    intros <-. done.
  - intros rc. rewrite get_cell_upd_cell. case_decide; subst; [|done]. apply Hg.
  - intros rc. unfold cell_value. rewrite get_cell_upd_cell.
    case_decide; subst; [|done]. apply Hg.
  - reflexivity.
Qed.

Lemma restyled_materialize hot (c : Z) ws :
  restyled hot ws (materialize (template_row, c) ws).
Proof.
  unfold materialize. constructor.
  - reflexivity.
  - intros rc H1 H2. rewrite cells_upd_cell. rewrite decide_False; [done|].
    intros <-. done.
  - intros rc H. rewrite get_cell_upd_cell. by case_decide; subst.
  - intros rc. rewrite get_cell_upd_cell. by case_decide; subst.
  - intros rc. unfold cell_value. rewrite get_cell_upd_cell. by case_decide; subst.
  - reflexivity.
Qed.

Lemma restyled_foldl {A} hot (f : Worksheet -> A -> Worksheet) (l : list A) ws :
  (forall w x, restyled hot w (f w x)) -> restyled hot ws (foldl f ws l).
Proof.
  intros Hf. revert ws. induction l as [|x l IH]; intros ws; simpl.
  - apply restyled_refl.
  - eapply restyled_trans; [apply Hf|apply IH].
Qed.

Lemma style_only_id : style_only id.
Proof. by intros c. Qed.

Lemma style_only_map_style g : style_only (map_style g).
Proof. by intros [v st|st]. Qed.

Lemma restyled_clone_cell_style row col ws :
  restyled row ws (clone_cell_style row col ws).
Proof.
  unfold clone_cell_style.
  set (ws1 := materialize (template_row, col) ws).
  set (ws2 := materialize (row, col) ws1).
  assert (restyled row ws ws2) as H12.
  { eapply restyled_trans; [apply restyled_materialize|].
    apply restyled_upd_hot, style_only_id. }
  destruct (has_style _); [|done].
  eapply restyled_trans; [exact H12|]. apply restyled_upd_hot, style_only_map_style.
Qed.

Lemma restyled_copy_row_height hot row ws : restyled hot ws (copy_row_height row ws).
Proof. by constructor. Qed.

Lemma restyled_band index row ws : restyled row ws (band index row ws).
Proof.
  unfold band. apply restyled_foldl. intros w col.
  apply restyled_upd_hot, style_only_map_style.
Qed.

(** The fill of a banded row. *)
Lemma band_fill_at index row ws c :
  1 <= c <= 30 -> fill (cell_style (band index row ws) (row, c)) = band_fill index.
Proof.
  intros Hc. unfold band.
  assert (c ∈ seqZ 1 30) as Hin by (apply elem_of_seqZ; lia).
  revert ws Hin. generalize (seqZ 1 30).
  induction l as [|x l IH] using rev_ind; intros ws Hin.
  - by apply elem_of_nil in Hin.
  - rewrite foldl_app; simpl. unfold cell_style. rewrite get_cell_upd_cell.
    case_decide as E.
    + by destruct (get_cell _ _).
    + apply elem_of_app in Hin as [Hin|Hin]; [by apply IH|].
      apply list_elem_of_singleton in Hin. congruence.
Qed.

(** ** Cloning the merged regions *)

Lemma get_cell_merge_cells_out cr ws rc :
  in_range rc cr = false -> get_cell (merge_cells cr ws) rc = get_cell ws rc.
Proof.
  intros H. unfold get_cell at 1. rewrite cells_merge_cells.
  rewrite decide_False by (intros [? _]; congruence).
  by case_decide; subst.
Qed.

Lemma cells_merge_cells_row cr ws (rc : coord) :
  min_row cr = max_row cr -> fst rc <> min_row cr ->
  cells (merge_cells cr ws) !! rc = cells ws !! rc.
Proof.
  intros Hrow Hne. rewrite cells_merge_cells.
  rewrite decide_False.
  - rewrite decide_False; [done|]. intros <-. done.
  - intros [H _]. apply in_range_spec in H. lia.
Qed.

Lemma CellRange_new_ok c0 r0 c1 r1 cr :
  CellRange_new c0 r0 c1 r1 = Ok cr ->
  cr = mkCellRange c0 r0 c1 r1 /\ c0 <= c1 /\ r0 <= r1.
Proof.
  unfold CellRange_new.
  destruct (Z.ltb_spec c1 c0), (Z.ltb_spec r1 r0); simpl; try discriminate.
  intros [= <-]. repeat split; lia.
Qed.

Lemma clone_merges_spec row snapshot ws ws' :
  clone_merges row snapshot ws = Ok ws' ->
  exists added,
    merged_cells ws' = merged_cells ws ++ added /\
    (forall r, In r added ->
       exists t, In t snapshot /\ on_template_row (bounds t) = true /\
                 r = MergedCellRange_new (clone_of row (bounds t)) /\
                 min_col (bounds t) <= max_col (bounds t)) /\
    (forall rc : coord, fst rc <> row -> cells ws' !! rc = cells ws !! rc) /\
    (forall rc : coord,
       (forall t, In t snapshot -> on_template_row (bounds t) = true ->
                  in_range rc (clone_of row (bounds t)) = false) ->
       get_cell ws' rc = get_cell ws rc).
Proof.
  revert ws. induction snapshot as [|t rest IH]; intros ws H; simpl in H.
  - injection H as <-. exists []. rewrite app_nil_r. repeat split; try done.
  - fold (on_template_row (bounds t)) in H.
    destruct (on_template_row (bounds t)) eqn:Ht.
    + bind_inv H. apply CellRange_new_ok in Ha as (-> & Hcols & _).
      fold (clone_of row (bounds t)) in H.
      destruct (IH _ H) as (added & Hm & Hadd & Hfar & Hget).
      rewrite merged_merge_cells in Hm.
      exists ((if existsb (fun r => range_subset (clone_of row (bounds t)) (bounds r))
                          (merged_cells ws)
               then [] else [MergedCellRange_new (clone_of row (bounds t))]) ++ added).
      split; [|split; [|split]].
      * rewrite Hm. destruct (existsb _ _); [done|]. by rewrite <- app_assoc.
      * intros r Hr. apply in_app_or in Hr as [Hr|Hr].
        -- destruct (existsb _ _); [done|]. destruct Hr as [<-|[]].
           exists t. repeat split; auto. by left.
        -- destruct (Hadd r Hr) as (t' & ? & ?). exists t'. split; [by right|done].
      * intros rc Hne. rewrite Hfar by done. by apply cells_merge_cells_row.
      * intros rc Hout. rewrite Hget.
        -- apply get_cell_merge_cells_out. apply Hout; [by left|done].
        -- intros t' Hin. apply Hout. by right.
    + destruct (IH _ H) as (added & Hm & Hadd & Hfar & Hget).
      exists added. split; [done|]. split; [|split; [done|]].
      * intros r Hr. destruct (Hadd r Hr) as (t' & ? & ?). exists t'. split; [by right|done].
      * intros rc Hout. apply Hget. intros t' Hin. apply Hout. by right.
Qed.

(** ** Writing one row *)

Lemma free_same ws ws' t :
  merged_cells ws' = merged_cells ws ->
  is_merged (get_cell ws' t) = is_merged (get_cell ws t) ->
  free ws t -> free ws' t.
Proof.
  intros Hm Hk [Hr Hn]. split.
  - by rewrite Hm.
  - rewrite is_merged_cell_iff in *. by rewrite Hk.
Qed.

Lemma wrote_row_refl row ws : wrote_row row ws ws.
Proof. by constructor. Qed.

Lemma wrote_row_trans row ws1 ws2 ws3 :
  wrote_row row ws1 ws2 -> wrote_row row ws2 ws3 -> wrote_row row ws1 ws3.
Proof.
  intros [A1 A2 A3 A4 A5 A6] [B1 B2 B3 B4 B5 B6]. constructor.
  - congruence.
  - intros rc. by rewrite B2, A2.
  - intros rc. by rewrite B3, A3.
  - intros t Hf Hne. rewrite B4, A4; try done. by apply (free_same ws1).
  - intros Hs rc Hlt. rewrite B5, A5; try done. by rewrite A1.
  - congruence.
Qed.

Lemma resolve_row ws (rc : coord) :
  (forall r, In r (merged_cells ws) -> fst (start_cell r) <= fst rc) ->
  fst (resolve ws rc) <= fst rc.
Proof.
  intros H. unfold resolve. destruct (find _ _) as [r|] eqn:E; [|lia].
  apply find_some in E as [Hin _]. by apply H.
Qed.

Lemma wrote_row_set_cell_value ws ref v ws' :
  set_cell_value ws ref v = Ok ws' -> wrote_row (snd ref) ws ws'.
Proof.
  intros H. pose proof (fun rc => set_cell_value_style _ _ _ _ rc H) as Hst.
  pose proof (set_cell_value_merged _ _ _ _ H) as Hm.
  constructor; try done.
  - intros rc. apply set_cell_value_inv in H as [->|(v0 & st & Hc & ->)]; [done|].
    unfold get_cell; simpl.
    destruct (decide (resolve ws (coordinate_to_tuple ref) = rc)) as [<-|Hne].
    + rewrite lookup_insert_eq. unfold get_cell in Hc. by rewrite Hc.
    + by rewrite lookup_insert_ne.
  - intros t Hf Hne. eapply set_cell_value_free_other; [done| |done].
    intros <-. done.
  - intros Hs rc Hlt. apply set_cell_value_inv in H as [->|(v0 & st & Hc & ->)]; [done|].
    simpl. rewrite lookup_insert_ne; [done|]. intros E.
    pose proof (resolve_row ws (coordinate_to_tuple ref) Hs) as Hle.
    rewrite E in Hle. simpl in Hle. lia.
  - apply set_cell_value_inv in H as [->|(v0 & st & Hc & ->)]; done.
Qed.

Lemma wrote_row_set_cell_values row ws calls ws' :
  Forall (on_row row) calls ->
  set_cell_values ws calls = Ok ws' -> wrote_row row ws ws'.
Proof.
  revert ws. induction calls as [|[ref arg] calls IH]; intros ws Hall H; simpl in H.
  - injection H as <-. apply wrote_row_refl.
  - bind_inv H. bind_inv H. inversion Hall as [|? ? Hrow Hall']; subst.
    eapply wrote_row_trans; [|by apply IH].
    unfold on_row in Hrow; simpl in Hrow. rewrite <- Hrow.
    by eapply wrote_row_set_cell_value.
Qed.

Ltac on_row_list := repeat (constructor; [reflexivity|]); constructor.

Lemma clone_row_spec_aux row ws ws1 ws3 ws' :
  template_row < row ->
  ws1 = insert_rows row ws -> restyled row ws1 ws3 ->
  clone_template_merges row ws3 = Ok ws' ->
  exists added,
    merged_cells ws' = (move_start row <$> merged_cells ws) ++ added /\
    (forall r, In r added ->
       exists t, In t (merged_cells ws) /\ on_template_row (bounds t) = true /\
                 r = MergedCellRange_new (clone_of row (bounds t)) /\
                 min_col (bounds t) <= max_col (bounds t)) /\
    (forall rc : coord, fst rc < row -> get_cell ws' rc = get_cell ws rc) /\
    (forall r c : Z, row < r -> cells ws' !! (r, c) = cells ws !! (r - 1, c)) /\
    (forall c : Z,
       (forall t, In t (merged_cells ws) -> on_template_row (bounds t) = true ->
                  in_range (row, c) (clone_of row (bounds t)) = false) ->
       ~ is_merged_cell ws' (row, c)).
Proof.
  intros Hrow E1 [R1 R2 R3 R4 R5 R6] H. unfold clone_template_merges in H.
  assert (merged_cells ws1 = move_start row <$> merged_cells ws) as Hm1 by by subst ws1.
  assert (forall t, In t (merged_cells ws3) ->
            exists t0, In t0 (merged_cells ws) /\ bounds t = bounds t0) as Hsnap.
  { intros t Ht. rewrite R1, Hm1 in Ht.
    apply list_elem_of_In, list_elem_of_fmap in Ht as (t0 & -> & Ht).
    exists t0. split; [by apply list_elem_of_In|reflexivity]. }
  destruct (clone_merges_spec _ _ _ _ H) as (added & Hm & Hadd & Hfar & Hget).
  clear H.
  exists added. split; [by rewrite Hm, R1, Hm1|]. split; [|split; [|split]].
  - intros r Hr. destruct (Hadd r Hr) as (t & Ht & Hon & -> & Hc).
    destruct (Hsnap t Ht) as (t0 & Ht0 & E). exists t0. rewrite <- E. auto.
  - intros rc Hlt. unfold get_cell at 1. rewrite Hfar by lia.
    fold (get_cell ws3 rc). rewrite R3 by lia. subst ws1.
    by apply get_cell_insert_rows_above.
  - intros r c Hlt. rewrite Hfar by (simpl; lia).
    rewrite R2 by (unfold template_row in *; simpl; lia).
    replace r with (r - 1 + 1) at 1 by lia. subst ws1.
    apply cells_insert_rows_below. lia.
  - intros c Hout. rewrite is_merged_cell_iff. rewrite Hget.
    + rewrite R4. unfold get_cell. subst ws1. by rewrite cells_insert_rows_at.
    + intros t Ht Hon. destruct (Hsnap t Ht) as (t0 & Ht0 & E).
      rewrite E in *. by apply Hout.
Qed.

Lemma clone_row_eq row ws :
  clone_template_merges row
    (copy_row_height row (clone_styles row (insert_rows row ws))) = clone_row row ws.
Proof.
  exact (eq_refl (clone_template_merges row
                    (copy_row_height row (clone_styles row (insert_rows row ws))))).
Qed.

(** What [clone_row] does to a sheet: the regions are the old ones
    (start cells moved with their rows) followed by the clones; the rows
    above are as they were, the rows below are one row further down, and
    a cell of the new row is an ordinary cell unless a clone covers it. *)
Lemma clone_row_spec row ws ws' :
  template_row < row -> clone_row row ws = Ok ws' ->
  exists added,
    merged_cells ws' = (move_start row <$> merged_cells ws) ++ added /\
    (forall r, In r added ->
       exists t, In t (merged_cells ws) /\ on_template_row (bounds t) = true /\
                 r = MergedCellRange_new (clone_of row (bounds t)) /\
                 min_col (bounds t) <= max_col (bounds t)) /\
    (forall rc : coord, fst rc < row -> get_cell ws' rc = get_cell ws rc) /\
    (forall r c : Z, row < r -> cells ws' !! (r, c) = cells ws !! (r - 1, c)) /\
    (forall c : Z,
       (forall t, In t (merged_cells ws) -> on_template_row (bounds t) = true ->
                  in_range (row, c) (clone_of row (bounds t)) = false) ->
       ~ is_merged_cell ws' (row, c)).
Proof.
  intros Hrow H. rewrite <- clone_row_eq in H.
  apply (clone_row_spec_aux row ws (insert_rows row ws)
           (copy_row_height row (clone_styles row (insert_rows row ws))) ws' Hrow eq_refl);
    [|exact H].
  eapply restyled_trans; [|apply restyled_copy_row_height].
  apply restyled_foldl. intros w col. apply restyled_clone_cell_style.
Qed.

Lemma clone_row_free row ws ws' (t : coord) :
  template_row < row -> clone_row row ws = Ok ws' ->
  fst t < row -> free ws t -> free ws' t.
Proof.
  intros Hrow H Hlt Hfree.
  destruct (clone_row_spec _ _ _ Hrow H) as (added & Hm & Hadd & Hget & _).
  pose proof (free_insert_rows row ws t Hlt Hfree) as [Hr _].
  destruct Hfree as [_ Hn]. split.
  - intros r Hin. rewrite Hm in Hin. apply in_app_or in Hin as [Hin|Hin].
    + apply Hr. cbn [insert_rows merged_cells]. done.
    + destruct (Hadd r Hin) as (t0 & _ & _ & -> & _). simpl. split.
      * apply not_true_is_false. intros E%in_range_spec. simpl in E. lia.
      * unfold top_left_of; simpl. intros E. rewrite <- E in Hlt. simpl in Hlt. lia.
  - rewrite is_merged_cell_iff in *. by rewrite Hget.
Qed.

Lemma clone_covers_template_row row (b : CellRange) (c : Z) :
  on_template_row b = true ->
  in_range (row, c) (clone_of row b) = in_range (template_row, c) b.
Proof.
  unfold on_template_row, in_range, clone_of; simpl.
  rewrite andb_true_iff, !Z.eqb_eq. intros [-> ->].
  by rewrite !Z.leb_refl.
Qed.

Lemma clone_row_col_free row ws ws' (c : Z) :
  template_row < row -> clone_row row ws = Ok ws' ->
  col_free ws c -> col_free ws' c /\ ~ is_merged_cell ws' (row, c).
Proof.
  intros Hrow H Hcol.
  destruct (clone_row_spec _ _ _ Hrow H) as (added & Hm & Hadd & _ & _ & Hnew).
  assert (forall t, In t (merged_cells ws) -> on_template_row (bounds t) = true ->
            in_range (row, c) (clone_of row (bounds t)) = false) as Hout.
  { intros t Ht Hon. rewrite clone_covers_template_row by done.
    destruct (Hcol t Ht) as [Hb _]. apply Hb. lia. }
  split; [|by apply Hnew].
  intros r Hin. rewrite Hm in Hin. apply in_app_or in Hin as [Hin|Hin].
  - apply list_elem_of_In, list_elem_of_fmap in Hin as (r0 & -> & Hin).
    apply list_elem_of_In in Hin. destruct (Hcol r0 Hin) as [Hb Hs].
    split; [exact Hb|]. simpl. unfold shift_row.
    destruct (Z.leb_spec row (fst (start_cell r0))); simpl; intros; apply Hs;
      unfold template_row in *; lia.
  - destruct (Hadd r Hin) as (t & Ht & Hon & -> & Hc). simpl. split.
    + intros row' _. apply not_true_is_false. intros E%in_range_spec. simpl in E.
      destruct E as [E1 E2]. assert (row' = row) as -> by lia.
      specialize (Hout t Ht Hon). apply not_true_iff_false in Hout. apply Hout.
      apply in_range_spec. simpl. lia.
    + intros _ E. specialize (Hout t Ht Hon). apply not_true_iff_false in Hout.
      apply Hout. apply in_range_spec. simpl. lia.
Qed.

Lemma clone_row_starts row ws ws' :
  template_row < row -> clone_row row ws = Ok ws' ->
  (forall r, In r (merged_cells ws) -> fst (start_cell r) < row) ->
  forall r, In r (merged_cells ws') -> fst (start_cell r) <= row.
Proof.
  intros Hrow H Hs r Hin.
  destruct (clone_row_spec _ _ _ Hrow H) as (added & Hm & Hadd & _).
  rewrite Hm in Hin. apply in_app_or in Hin as [Hin|Hin].
  - apply list_elem_of_In, list_elem_of_fmap in Hin as (r0 & -> & Hin).
    apply list_elem_of_In in Hin. specialize (Hs r0 Hin). simpl. unfold shift_row.
    destruct (Z.leb_spec row (fst (start_cell r0))); simpl; lia.
  - destruct (Hadd r Hin) as (t & _ & _ & -> & _). simpl. lia.
Qed.

Section ReportFacts.
Context {builtins : PyBuiltins}.

Lemma populate_wrote_row row item ws ws' :
  populate row item ws = Ok ws' -> wrote_row row ws ws'.
Proof.
  unfold populate. intros H.
  do 3 bind_inv H. bind_inv H. rename a2 into ws1, Ha2 into H1.
  bind_inv H. rename a2 into ws2, Ha2 into H2.
  do 7 bind_inv H.
  eapply wrote_row_trans; [|eapply wrote_row_trans].
  - eapply wrote_row_set_cell_values; [|exact H1]. on_row_list.
  - destruct (py_truthy _);
      (eapply wrote_row_set_cell_values; [|exact H2]); on_row_list.
  - eapply wrote_row_set_cell_values; [|exact H]. on_row_list.
Qed.

(** *** One turn of the loop *)

Lemma write_row_inv index item ws ws' :
  write_row index item ws = Ok ws' ->
  exists ws1 ws2,
    (if (0 <? index)%nat then clone_row (10 + Z.of_nat index) ws else Ok ws) = Ok ws1 /\
    populate (10 + Z.of_nat index) item ws1 = Ok ws2 /\
    ws' = band index (10 + Z.of_nat index) ws2.
Proof.
  unfold write_row. intros H. bind_inv H. bind_inv H. injection H as <-. eauto.
Qed.

Lemma first_row_inv index ws ws1 :
  (if (0 <? index)%nat then clone_row (10 + Z.of_nat index) ws else Ok ws) = Ok ws1 ->
  (index = 0%nat /\ ws1 = ws) \/
  ((0 < index)%nat /\ clone_row (10 + Z.of_nat index) ws = Ok ws1).
Proof.
  destruct (Nat.ltb_spec 0 index) as [Hlt|Hge].
  - intros H. right. done.
  - intros [= <-]. left. split; [lia|done].
Qed.

(** A free cell above the row being written is left alone. *)
Lemma write_row_above index item ws ws' (t : coord) :
  write_row index item ws = Ok ws' ->
  fst t < 10 + Z.of_nat index -> free ws t ->
  get_cell ws' t = get_cell ws t /\ free ws' t.
Proof.
  intros H Hlt Hfree.
  destruct (write_row_inv _ _ _ _ H) as (ws1 & ws2 & H1 & H2 & ->).
  assert (get_cell ws1 t = get_cell ws t /\ free ws1 t) as [E1 Hfree1].
  { apply first_row_inv in H1 as [[_ ->]|[Hpos H1]]; [done|].
    assert (template_row < 10 + Z.of_nat index) as Hrow by (unfold template_row; lia).
    destruct (clone_row_spec _ _ _ Hrow H1) as (_ & _ & _ & Hget & _).
    split; [by apply Hget|]. by eapply clone_row_free. }
  pose proof (populate_wrote_row _ _ _ _ H2) as [W1 W2 W3 W4 W5 W6].
  pose proof (restyled_band index (10 + Z.of_nat index) ws2) as [R1 R2 R3 R4 R5 R6].
  assert (get_cell ws2 t = get_cell ws1 t) as E2.
  { unfold get_cell. rewrite W4; [done|done|lia]. }
  split.
  - rewrite R3 by lia. congruence.
  - apply (free_same ws2); [done|apply R4|].
    apply (free_same ws1); [done|apply W3|done].
Qed.

Lemma write_row_col_free index item ws ws' (c : Z) :
  write_row index item ws = Ok ws' -> col_free ws c -> col_free ws' c.
Proof.
  intros H Hcol.
  destruct (write_row_inv _ _ _ _ H) as (ws1 & ws2 & H1 & H2 & ->).
  assert (col_free ws1 c) as Hcol1.
  { apply first_row_inv in H1 as [[_ ->]|[Hpos H1]]; [done|].
    eapply clone_row_col_free; [|exact H1|done]. unfold template_row; lia. }
  pose proof (populate_wrote_row _ _ _ _ H2) as [W1 _ _ _ _ _].
  pose proof (restyled_band index (10 + Z.of_nat index) ws2) as [R1 _ _ _ _ _].
  unfold col_free. rewrite R1, W1. exact Hcol1.
Qed.

(** The styles: the written row is banded, the rows above keep theirs. *)
Lemma write_row_styles index item ws ws' :
  write_row index item ws = Ok ws' ->
  (forall c, 1 <= c <= 30 ->
     fill (cell_style ws' (10 + Z.of_nat index, c)) = band_fill index) /\
  (forall rc : coord, fst rc < 10 + Z.of_nat index -> cell_style ws' rc = cell_style ws rc).
Proof.
  intros H.
  destruct (write_row_inv _ _ _ _ H) as (ws1 & ws2 & H1 & H2 & ->).
  split; [intros c Hc; by apply band_fill_at|].
  intros rc Hlt.
  pose proof (populate_wrote_row _ _ _ _ H2) as [_ W2 _ _ _ _].
  pose proof (restyled_band index (10 + Z.of_nat index) ws2) as [_ _ R3 _ _ _].
  unfold cell_style at 1. rewrite R3 by lia. fold (cell_style ws2 rc). rewrite W2.
  apply first_row_inv in H1 as [[_ ->]|[Hpos H1]]; [done|].
  assert (template_row < 10 + Z.of_nat index) as Hrow by (unfold template_row; lia).
  destruct (clone_row_spec _ _ _ Hrow H1) as (_ & _ & _ & Hget & _).
  unfold cell_style. by rewrite Hget.
Qed.

(** The rows below: untouched by the first turn, one row further down
    after any other turn, as long as no start cell sits below. *)
Lemma write_row_below index item ws ws' :
  write_row index item ws = Ok ws' ->
  (forall r, In r (merged_cells ws) ->
             fst (start_cell r) < 10 + Z.max (Z.of_nat index) 1) ->
  (forall r, In r (merged_cells ws') -> fst (start_cell r) <= 10 + Z.of_nat index) /\
  (forall r c : Z, 10 + Z.of_nat index < r ->
     cells ws' !! (r, c) = cells ws !! (if (0 <? index)%nat then r - 1 else r, c)).
Proof.
  intros H Hs.
  destruct (write_row_inv _ _ _ _ H) as (ws1 & ws2 & H1 & H2 & ->).
  pose proof (populate_wrote_row _ _ _ _ H2) as [W1 _ _ _ W5 _].
  pose proof (restyled_band index (10 + Z.of_nat index) ws2) as [R1 R2 _ _ _ _].
  assert ((forall r, In r (merged_cells ws1) -> fst (start_cell r) <= 10 + Z.of_nat index) /\
          (forall r c : Z, 10 + Z.of_nat index < r ->
             cells ws1 !! (r, c) = cells ws !! (if (0 <? index)%nat then r - 1 else r, c)))
    as [Hs1 Hb1].
  { destruct (Nat.ltb_spec 0 index) as [Hpos|Hz].
    - assert (template_row < 10 + Z.of_nat index) as Hrow by (unfold template_row; lia).
      split.
      + eapply clone_row_starts; [exact Hrow|exact H1|].
        intros r Hr. specialize (Hs r Hr). lia.
      + destruct (clone_row_spec _ _ _ Hrow H1) as (_ & _ & _ & _ & Hbelow & _).
        exact Hbelow.
    - injection H1 as <-. split; [|done].
      intros r Hr. specialize (Hs r Hr). lia. }
  split.
  - rewrite R1, W1. exact Hs1.
  - intros r c Hlt. rewrite R2 by (unfold template_row; simpl; lia).
    rewrite W5 by (simpl; auto; lia). by apply Hb1.
Qed.

(** *** The whole loop, by invariant *)

Lemma write_rows_from_ind (P : nat -> Worksheet -> Prop) items k ws ws' :
  (forall i item w w',
     items !! i = Some item -> P (k + i)%nat w ->
     write_row (k + i) item w = Ok w' -> P (S (k + i)) w') ->
  P k ws -> write_rows_from k items ws = Ok ws' -> P (k + length items)%nat ws'.
Proof.
  revert k ws. induction items as [|item rest IH]; intros k ws Hstep H0 H; simpl in H.
  - injection H as <-. by rewrite Nat.add_0_r.
  - bind_inv H. simpl. rewrite <- Nat.add_succ_comm. apply (IH (S k) a); [| |exact H].
    + intros i it w w' Hi Hp Hw.
      replace (S k + i)%nat with (k + S i)%nat in * by lia.
      by apply (Hstep (S i) it w w').
    + specialize (Hstep 0%nat item ws a eq_refl). rewrite Nat.add_0_r in Hstep. auto.
Qed.

End ReportFacts.

(** ** Runs of [set_cell_value] calls *)

Lemma set_cell_value_kind ws ref v ws' rc :
  set_cell_value ws ref v = Ok ws' ->
  is_merged (get_cell ws' rc) = is_merged (get_cell ws rc).
Proof. intros H. by destruct (wrote_row_set_cell_value _ _ _ _ H). Qed.

Lemma set_cell_values_kind ws calls ws' rc :
  set_cell_values ws calls = Ok ws' ->
  is_merged (get_cell ws' rc) = is_merged (get_cell ws rc).
Proof.
  revert ws. induction calls as [|[ref arg] calls IH]; intros ws H; simpl in H.
  - by injection H as <-.
  - bind_inv H. bind_inv H. rewrite (IH _ H). by eapply set_cell_value_kind.
Qed.

Lemma set_cell_values_free ws calls ws' t :
  set_cell_values ws calls = Ok ws' -> free ws t -> free ws' t.
Proof.
  intros H. apply free_same.
  - by eapply set_cell_values_merged.
  - by eapply set_cell_values_kind.
Qed.

(** Every argument of a run that went through was evaluated. *)
Lemma set_cell_values_args ws calls ws' :
  set_cell_values ws calls = Ok ws' ->
  Forall (fun call => exists v, snd call = Ok v) calls.
Proof.
  revert ws. induction calls as [|[ref arg] calls IH]; intros ws H; simpl in H.
  - constructor.
  - bind_inv H. bind_inv H. constructor; [by exists a|by eapply IH].
Qed.

(** The call at position [n] names the free cell [t] and no other call
    of the run does: [t] ends up holding that call's value. *)
Lemma set_cell_values_free_nth ws calls ws' t n ref arg :
  free ws t -> calls !! n = Some (ref, arg) ->
  coordinate_to_tuple ref = t ->
  Forall (misses t) (delete n calls) ->
  set_cell_values ws calls = Ok ws' ->
  exists v st, arg = Ok v /\ cells ws' !! t = Some (Cell v st) /\ free ws' t.
Proof.
  intros Hfree Hn Ht Hmiss H.
  rewrite <- (take_drop_middle calls n (ref, arg) Hn) in H.
  rewrite delete_take_drop in Hmiss. apply Forall_app in Hmiss as [Hb Ha].
  exact (set_cell_values_free_hit ws (take n calls) ref arg (drop (S n) calls) ws' t
           Hfree Hb Ha Ht H).
Qed.

Ltac misses_list :=
  cbn; repeat (constructor; [unfold misses; cbn; intros [=]|]); constructor.

Section ReportColumns.
Context {builtins : PyBuiltins}.

Lemma col_free_free ws (row c : Z) :
  col_free ws c -> template_row <= row -> ~ is_merged_cell ws (row, c) -> free ws (row, c).
Proof.
  intros Hcol Hrow Hn. split; [|done].
  intros r Hin. destruct (Hcol r Hin) as [Hb Hs]. split; [by apply Hb|].
  intros E. apply Hs; rewrite E; simpl; [done|reflexivity].
Qed.

(** Column A of a populated row holds the item's [hts_code]. *)
Lemma populate_hts_code row item ws ws' :
  free ws (row, 1) -> populate row item ws = Ok ws' ->
  exists st, cells ws' !! (row, 1) =
             Some (Cell (dict_get item "hts_code" (PStr EmptyString)) st).
Proof.
  unfold populate. intros Hfree H.
  do 3 bind_inv H. bind_inv H. rename a2 into ws1, Ha2 into H1.
  bind_inv H. rename a2 into ws2, Ha2 into H2.
  do 7 bind_inv H.
  eapply (set_cell_values_free_nth _ _ _ (row, 1) 0) in H1 as (v & st & Hv & Hc & Hf1);
    [|done|reflexivity|reflexivity|misses_list].
  injection Hv as <-.
  assert (cells ws2 !! (row, 1) = cells ws1 !! (row, 1) /\ free ws2 (row, 1)) as [E2 Hf2].
  { destruct (py_truthy _);
      (eapply set_cell_values_free_miss; [exact Hf1| |exact H2]); misses_list. }
  eapply set_cell_values_free_miss in H as [E3 _]; [|exact Hf2|misses_list].
  exists st. congruence.
Qed.

(** Column Z of a populated row (lines 207-208, 217). *)
Lemma populate_column_Z row item ws ws' :
  free ws (row, 26) -> populate row item ws = Ok ws' ->
  exists vat_base kkdf st,
    py_float (dict_get item "vat_base" (PInt 0)) = Ok vat_base /\
    py_float (dict_get item "kkdf" (PInt 0)) = Ok kkdf /\
    cells ws' !! (row, 26) = Some (Cell (PFloat (PrimFloat.sub vat_base kkdf)) st).
Proof.
  unfold populate. intros Hz H.
  do 3 bind_inv H. bind_inv H. rename a2 into ws1, Ha2 into H1.
  bind_inv H. rename a2 into ws2, Ha2 into H2.
  do 7 bind_inv H.
  assert (free ws2 (row, 26)) as Hz2.
  { clear - H1 H2 Hz.
    destruct (py_truthy _);
      (eapply set_cell_values_free; [exact H2|]);
      (eapply set_cell_values_free; [exact H1|]); done. }
  eapply (set_cell_values_free_nth _ _ _ (row, 26) 4) in H as (v & st1 & Hv & Hc & _);
    [|exact Hz2|reflexivity|reflexivity|misses_list].
  injection Hv as <-. exists a7, a4, st1. repeat split; done.
Qed.

(** Column AB of a populated row (lines 207-211, 219). *)
Lemma populate_column_AB row item ws ws' :
  free ws (row, 28) -> populate row item ws = Ok ws' ->
  exists vat_base kkdf vat_percent st,
    py_float (dict_get item "vat_base" (PInt 0)) = Ok vat_base /\
    py_float (dict_get item "kkdf" (PInt 0)) = Ok kkdf /\
    item_vat_percent item = Ok vat_percent /\
    cells ws' !! (row, 28) =
      Some (Cell (PFloat (PrimFloat.mul (PrimFloat.sub vat_base kkdf) vat_percent)) st).
Proof.
  unfold populate. intros Hab H.
  do 3 bind_inv H. bind_inv H. rename a2 into ws1, Ha2 into H1.
  bind_inv H. rename a2 into ws2, Ha2 into H2.
  do 7 bind_inv H.
  assert (free ws2 (row, 28)) as Hab2.
  { clear - H1 H2 Hab.
    destruct (py_truthy _);
      (eapply set_cell_values_free; [exact H2|]);
      (eapply set_cell_values_free; [exact H1|]); done. }
  eapply (set_cell_values_free_nth _ _ _ (row, 28) 6) in H as (v & st1 & Hv & Hc & _);
    [|exact Hab2|reflexivity|reflexivity|misses_list].
  injection Hv as <-. exists a7, a4, a8, st1. repeat split; done.
Qed.

(** A column that is clear of merged regions carries, on row [10 + i],
    what [populate] writes there for item [i]. *)
Lemma write_rows_column (c : Z) (V : gmap string pyval -> pyval -> Prop) :
  (forall row item ws ws',
     free ws (row, c) -> populate row item ws = Ok ws' ->
     exists v st, V item v /\ cells ws' !! (row, c) = Some (Cell v st)) ->
  forall items ws ws',
    col_free ws c -> ~ is_merged_cell ws (template_row, c) ->
    write_rows items ws = Ok ws' ->
    forall (i : nat) item, items !! i = Some item ->
      free ws' (10 + Z.of_nat i, c) /\
      exists v, V item v /\ cell_value ws' (10 + Z.of_nat i, c) = v.
Proof.
  intros Hpop items ws ws' Hcol Hn H.
  pose (P := fun (n : nat) (w : Worksheet) =>
          col_free w c /\
          (n = 0%nat -> ~ is_merged_cell w (template_row, c)) /\
          forall (j : nat) item, (j < n)%nat -> items !! j = Some item ->
            free w (10 + Z.of_nat j, c) /\
            exists v, V item v /\ cell_value w (10 + Z.of_nat j, c) = v).
  assert (P (0 + length items)%nat ws') as (_ & _ & Hall).
  { apply (write_rows_from_ind P items 0 ws ws'); [|split; [done|split; [done|]]|exact H].
    - simpl. intros i item w w' Hi (Hc & Hz & Hprev) Hw. split; [|split; [lia|]].
      + by eapply write_row_col_free.
      + intros j it Hj Hit. destruct (decide (j = i)) as [->|Hne].
        * assert (it = item) as -> by congruence.
          destruct (write_row_inv _ _ _ _ Hw) as (ws1 & ws2 & H1 & H2 & ->).
          assert (free ws1 (10 + Z.of_nat i, c)) as Hf1.
          { apply first_row_inv in H1 as [[-> ->]|[Hpos H1]].
            - apply col_free_free; [done|unfold template_row; lia|by apply Hz].
            - eapply clone_row_col_free in H1 as [Hc1 Hn1]; [|unfold template_row; lia|done].
              apply col_free_free; [done|unfold template_row; lia|done]. }
          pose proof (populate_wrote_row _ _ _ _ H2) as [W1 _ W3 _ _ _].
          pose proof (restyled_band i (10 + Z.of_nat i) ws2) as [R1 _ _ R4 R5 _].
          destruct (Hpop _ _ _ _ Hf1 H2) as (v & st & Hv & Hcell).
          split.
          -- apply (free_same ws2); [done|apply R4|].
             apply (free_same ws1); [done|apply W3|done].
          -- exists v. split; [done|]. rewrite R5. unfold cell_value, get_cell.
             by rewrite Hcell.
        * destruct (Hprev j it ltac:(lia) Hit) as (Hf & v & Hv & Hval).
          destruct (write_row_above _ _ _ _ (10 + Z.of_nat j, c) Hw) as [Hg Hf'];
            [simpl; lia|done|].
          split; [done|]. exists v. split; [done|]. unfold cell_value. by rewrite Hg.
    - intros j it Hj. lia. }
  intros i item Hi. apply Hall; [|done]. simpl. by eapply lookup_lt_Some.
Qed.

End ReportColumns.

Section ReportLoop.
Context {builtins : PyBuiltins}.

Lemma write_rows_fills items ws ws' :
  write_rows items ws = Ok ws' ->
  (forall (i : nat) (c : Z), (i < length items)%nat -> 1 <= c <= 30 ->
     fill (cell_style ws' (10 + Z.of_nat i, c)) = band_fill i) /\
  (forall rc : coord, fst rc < 10 -> cell_style ws' rc = cell_style ws rc).
Proof.
  intros H.
  pose (P := fun (n : nat) (w : Worksheet) =>
          (forall (j : nat) (c : Z), (j < n)%nat -> 1 <= c <= 30 ->
             fill (cell_style w (10 + Z.of_nat j, c)) = band_fill j) /\
          (forall rc : coord, fst rc < 10 -> cell_style w rc = cell_style ws rc)).
  apply (write_rows_from_ind P items 0 ws ws'); [|split; [intros; lia|done]|exact H].
  simpl. intros i item w w' Hi [Hprev Hab] Hw.
  destruct (write_row_styles _ _ _ _ Hw) as [Hnow Hkeep]. split.
  - intros j c Hj Hc. destruct (decide (j = i)) as [->|Hne]; [by apply Hnow|].
    rewrite Hkeep by (simpl; lia). apply Hprev; [lia|done].
  - intros rc Hrc. rewrite Hkeep by lia. by apply Hab.
Qed.


(** With no start cell below the template row, the loop leaves the
    rows under the template row intact and moves them down by one row
    per item after the first. *)
Lemma write_rows_below items ws ws' :
  write_rows items ws = Ok ws' -> items <> [] ->
  (forall r, In r (merged_cells ws) -> fst (start_cell r) <= template_row) ->
  forall r c : Z, template_row < r ->
    cells ws' !! (r + (Z.of_nat (length items) - 1), c) = cells ws !! (r, c).
Proof.
  intros H Hne Hstarts.
  pose (P := fun (n : nat) (w : Worksheet) =>
          (forall r, In r (merged_cells w) ->
                     fst (start_cell r) < 10 + Z.max (Z.of_nat n) 1) /\
          forall r c : Z, template_row < r ->
            cells w !! (r + Z.max (Z.of_nat n - 1) 0, c) = cells ws !! (r, c)).
  assert (P (0 + length items)%nat ws') as [_ Hfinal].
  { apply (write_rows_from_ind P items 0 ws ws'); [|split|exact H].
    - simpl. intros i item w w' Hi [Hs Hsh] Hw.
      destruct (write_row_below _ _ _ _ Hw Hs) as [Hs' Hb]. split.
      + intros r Hr. specialize (Hs' r Hr). lia.
      + intros r c Hr. unfold template_row in *.
        rewrite Hb by lia. rewrite <- (Hsh r c Hr).
        destruct (Nat.ltb_spec 0 i); f_equal; f_equal; lia.
    - intros r Hr. specialize (Hstarts r Hr). unfold template_row in *. simpl. lia.
    - intros r c Hr. simpl. f_equal. f_equal. lia. }
  intros r c Hr. rewrite <- (Hfinal r c Hr). simpl.
  destruct items; [done|]. simpl length. f_equal. f_equal. lia.
Qed.

End ReportLoop.

(** ** The regions after the loop *)

Lemma range_subset_clones row (a b : CellRange) :
  on_template_row a = true -> on_template_row b = true ->
  range_subset (clone_of row a) (clone_of row b) = range_subset a b.
Proof.
  unfold on_template_row, range_subset, clone_of; simpl.
  rewrite !andb_true_iff, !Z.eqb_eq. intros [-> ->] [-> ->].
  by rewrite !Z.leb_refl.
Qed.

Lemma clone_merges_bounds row snapshot ws ws' :
  clone_merges row snapshot ws = Ok ws' ->
  (forall t r, In t snapshot -> on_template_row (bounds t) = true ->
     In r (merged_cells ws) -> range_subset (clone_of row (bounds t)) (bounds r) = false) ->
  no_nesting (List.filter on_template_row (bounds <$> snapshot)) ->
  bounds <$> merged_cells ws' =
  (bounds <$> merged_cells ws) ++
  (clone_of row <$> List.filter on_template_row (bounds <$> snapshot)).
Proof.
  revert ws. induction snapshot as [|t rest IH]; intros ws H Hout Hnest; simpl in H.
  - injection H as <-. simpl. by rewrite app_nil_r.
  - fold (on_template_row (bounds t)) in H. cbn [fmap list_fmap List.filter] in *.
    destruct (on_template_row (bounds t)) eqn:Ht.
    + bind_inv H. apply CellRange_new_ok in Ha as (-> & _ & _).
      fold (clone_of row (bounds t)) in H. destruct Hnest as [Hhead Hnest].
      assert (existsb (fun r => range_subset (clone_of row (bounds t)) (bounds r))
                (merged_cells ws) = false) as Hex.
      { apply not_true_is_false. intros E. apply existsb_exists in E as (r & Hr & E).
        rewrite (Hout t r) in E; [done|by left|done|done]. }
      rewrite (IH _ H); [| |done].
      * rewrite merged_merge_cells, Hex. rewrite fmap_app. simpl.
        by rewrite <- app_assoc.
      * intros t' r Ht' Hon Hr. rewrite merged_merge_cells, Hex in Hr.
        apply in_app_or in Hr as [Hr|[<-|[]]].
        -- apply Hout; [by right|done|done].
        -- simpl. rewrite range_subset_clones by done. apply Hhead.
           apply filter_In. split; [|done].
           apply list_elem_of_In, list_elem_of_fmap. exists t'.
           split; [done|by apply list_elem_of_In].
    + apply IH; [done| |done]. intros t' r Ht'. apply Hout. by right.
Qed.

Lemma clone_row_bounds_aux row ws ws3 ws' :
  bounds <$> merged_cells ws3 = bounds <$> merged_cells ws ->
  clone_template_merges row ws3 = Ok ws' ->
  (forall r, In r (merged_cells ws) -> max_row (bounds r) < row) ->
  no_nesting (template_regions ws) ->
  bounds <$> merged_cells ws' =
  (bounds <$> merged_cells ws) ++ (clone_of row <$> template_regions ws).
Proof.
  intros Hb H Hmax Hnest. unfold clone_template_merges in H.
  rewrite (clone_merges_bounds _ _ _ _ H).
  - unfold template_regions. by rewrite Hb.
  - intros t r Ht Hon Hr.
    assert (bounds r ∈ bounds <$> merged_cells ws3) as Hin.
    { apply list_elem_of_fmap. exists r. split; [done|by apply list_elem_of_In]. }
    rewrite Hb in Hin. apply list_elem_of_fmap in Hin as (r0 & E & Hr0).
    apply list_elem_of_In in Hr0. specialize (Hmax r0 Hr0).
    apply not_true_is_false. unfold range_subset, clone_of; simpl.
    rewrite !andb_true_iff, !Z.leb_le. rewrite E. lia.
  - unfold template_regions in Hnest. by rewrite Hb.
Qed.

Lemma clone_row_bounds row ws ws' :
  template_row < row -> clone_row row ws = Ok ws' ->
  (forall r, In r (merged_cells ws) -> max_row (bounds r) < row) ->
  no_nesting (template_regions ws) ->
  bounds <$> merged_cells ws' =
  (bounds <$> merged_cells ws) ++ (clone_of row <$> template_regions ws).
Proof.
  intros Hrow H Hmax Hnest. rewrite <- clone_row_eq in H.
  refine (clone_row_bounds_aux row ws _ ws' _ H Hmax Hnest).
  assert (restyled row (insert_rows row ws)
            (copy_row_height row (clone_styles row (insert_rows row ws)))) as [R1 _ _ _ _ _].
  { eapply restyled_trans; [|apply restyled_copy_row_height].
    apply restyled_foldl. intros w col. apply restyled_clone_cell_style. }
  rewrite R1. apply bounds_insert_rows.
Qed.

Lemma clones_for_S (n : nat) (regions : list CellRange) :
  clones_for (S n) regions =
  clones_for n regions ++
  (if (0 <? n)%nat then clone_of (10 + Z.of_nat n) <$> regions else []).
Proof.
  unfold clones_for. destruct n as [|m]; [done|].
  replace (S (S m) - 1)%nat with (S m) by lia.
  replace (S m - 1)%nat with m by lia.
  rewrite seq_S, bind_app. simpl. by rewrite app_nil_r.
Qed.

Lemma elem_of_clones_for (n : nat) (regions : list CellRange) (b : CellRange) :
  b ∈ clones_for n regions <->
  exists (i : nat) t, (1 <= i < n)%nat /\ t ∈ regions /\ b = clone_of (10 + Z.of_nat i) t.
Proof.
  unfold clones_for. rewrite list_elem_of_bind. split.
  - intros (i & Hb & Hi). apply list_elem_of_fmap in Hb as (t & -> & Ht).
    apply elem_of_seq in Hi. exists i, t. split; [lia|done].
  - intros (i & t & Hi & Ht & ->). exists i. split.
    + apply list_elem_of_fmap. by exists t.
    + apply elem_of_seq. lia.
Qed.

Lemma filter_clones_for (n : nat) (regions : list CellRange) :
  List.filter on_template_row (clones_for n regions) = [].
Proof.
  destruct (List.filter _ _) as [|b l] eqn:E; [done|].
  assert (In b (List.filter on_template_row (clones_for n regions))) as Hin
    by (rewrite E; by left).
  apply filter_In in Hin as [Hin Hon].
  apply list_elem_of_In, elem_of_clones_for in Hin as (i & t & Hi & _ & ->).
  unfold on_template_row, clone_of, template_row in Hon; simpl in Hon.
  apply andb_true_iff in Hon as [Hon _]. apply Z.eqb_eq in Hon. lia.
Qed.

Section ReportRegions.
Context {builtins : PyBuiltins}.

Lemma write_row_bounds index item ws ws' :
  write_row index item ws = Ok ws' ->
  (forall r, In r (merged_cells ws) ->
             max_row (bounds r) < 10 + Z.max (Z.of_nat index) 1) ->
  no_nesting (template_regions ws) ->
  bounds <$> merged_cells ws' =
  (bounds <$> merged_cells ws) ++
  (if (0 <? index)%nat then clone_of (10 + Z.of_nat index) <$> template_regions ws else []).
Proof.
  intros H Hmax Hnest.
  destruct (write_row_inv _ _ _ _ H) as (ws1 & ws2 & H1 & H2 & ->).
  pose proof (populate_wrote_row _ _ _ _ H2) as [W1 _ _ _ _ _].
  pose proof (restyled_band index (10 + Z.of_nat index) ws2) as [R1 _ _ _ _ _].
  rewrite R1, W1.
  destruct (Nat.ltb_spec 0 index) as [Hpos|Hz].
  - apply clone_row_bounds; [unfold template_row; lia|done| |done].
    intros r Hr. specialize (Hmax r Hr). lia.
  - injection H1 as <-. by rewrite app_nil_r.
Qed.

(** The regions after the loop: the template's, then one clone of
    every template-row region for each inserted row. *)
Lemma write_rows_bounds items ws ws' :
  write_rows items ws = Ok ws' ->
  (forall r, In r (merged_cells ws) -> max_row (bounds r) <= template_row) ->
  no_nesting (template_regions ws) ->
  bounds <$> merged_cells ws' =
  (bounds <$> merged_cells ws) ++ clones_for (length items) (template_regions ws).
Proof.
  intros H Hmax Hnest.
  pose (P := fun (n : nat) (w : Worksheet) =>
          bounds <$> merged_cells w =
          (bounds <$> merged_cells ws) ++ clones_for n (template_regions ws)).
  apply (write_rows_from_ind P items 0 ws ws'); [|unfold P; simpl; by rewrite app_nil_r|exact H].
  simpl. unfold P. intros i item w w' Hi Hw Hrow.
  assert (template_regions w = template_regions ws) as Ht.
  { unfold template_regions at 1. rewrite Hw, List.filter_app, filter_clones_for.
    by rewrite app_nil_r. }
  rewrite (write_row_bounds _ _ _ _ Hrow).
  - rewrite Hw, Ht, clones_for_S. by rewrite <- app_assoc.
  - intros r Hr.
    assert (bounds r ∈ bounds <$> merged_cells w) as Hin.
    { apply list_elem_of_fmap. exists r. split; [done|by apply list_elem_of_In]. }
    rewrite Hw in Hin. apply elem_of_app in Hin as [Hin|Hin].
    + apply list_elem_of_fmap in Hin as (r0 & -> & Hr0).
      apply list_elem_of_In in Hr0. specialize (Hmax r0 Hr0).
      unfold template_row in *. lia.
    + apply elem_of_clones_for in Hin as (j & t & Hj & _ & ->). simpl. lia.
  - by rewrite Ht.
Qed.

End ReportRegions.

(** ** The phases around the loop *)

Lemma same_layout_refl ws : same_layout ws ws.
Proof. by constructor. Qed.

Lemma same_layout_trans ws1 ws2 ws3 :
  same_layout ws1 ws2 -> same_layout ws2 ws3 -> same_layout ws1 ws3.
Proof.
  intros [A1 A2 A3 A4] [B1 B2 B3 B4]. constructor.
  - congruence.
  - intros rc. by rewrite B2, A2.
  - intros rc. by rewrite B3, A3.
  - congruence.
Qed.


Lemma same_layout_col_free ws ws' c : same_layout ws ws' -> col_free ws c -> col_free ws' c.
Proof. intros [A1 _ _ _]. unfold col_free. by rewrite A1. Qed.

Lemma same_layout_not_merged ws ws' rc :
  same_layout ws ws' -> ~ is_merged_cell ws rc -> ~ is_merged_cell ws' rc.
Proof. intros [_ A2 _ _]. rewrite !is_merged_cell_iff. by rewrite A2. Qed.

Lemma same_layout_upd_cell g rc ws :
  (forall c, is_merged (g c) = is_merged c /\ style_of (g c) = style_of c) ->
  same_layout ws (upd_cell g rc ws).
Proof.
  intros Hg. constructor; try done.
  - intros rc'. rewrite get_cell_upd_cell. case_decide; subst; [apply Hg|done].
  - intros rc'. unfold cell_style. rewrite get_cell_upd_cell.
    case_decide; subst; [apply Hg|done].
Qed.

Lemma same_layout_prebake ws_data ws : same_layout ws (prebake ws_data ws).
Proof.
  unfold prebake. case_bool_decide as Hne; [apply same_layout_refl|]. clear Hne.
  generalize (box_coords 1 (ws_max_row ws) 1 (ws_max_column ws)). intros l.
  revert ws. induction l as [|rc l IH]; intros ws; simpl.
  - apply same_layout_refl.
  - eapply same_layout_trans; [|apply IH].
    unfold prebake_cell.
    assert (same_layout ws (materialize rc ws)) as Hm.
    { apply same_layout_upd_cell. done. }
    destruct (is_formula (get_cell (materialize rc ws) rc)) eqn:Hf; [|done].
    eapply same_layout_trans; [exact Hm|].
    constructor; try done.
    + intros rc'. rewrite get_cell_upd_cell. case_decide; subst; [|done].
      by destruct (get_cell (materialize rc' ws) rc') as [[]|].
    + intros rc'. unfold cell_style. rewrite get_cell_upd_cell.
      by case_decide; subst.
Qed.

Lemma same_layout_set_cell_values ws calls ws' :
  set_cell_values ws calls = Ok ws' -> same_layout ws ws'.
Proof.
  intros H. constructor.
  - by eapply set_cell_values_merged.
  - intros rc. by eapply set_cell_values_kind.
  - intros rc. by eapply set_cell_values_style.
  - revert ws H. induction calls as [|[ref arg] calls IH]; intros ws H; simpl in H.
    + by injection H as <-.
    + bind_inv H. bind_inv H. rewrite (IH _ H).
      apply set_cell_value_inv in Ha0 as [->|(v0 & st & _ & ->)]; done.
Qed.

Section ReportTop.
Context {builtins : PyBuiltins}.

Lemma write_top_inv data ws ws' :
  write_top data ws = Ok ws' ->
  exists ws1 totals ws2,
    write_header (calculation data) ws = Ok ws1 /\
    compute_totals (items data) = Ok totals /\
    write_summary totals ws1 = Ok ws2 /\
    write_titles ws2 = Ok ws'.
Proof.
  unfold write_top. intros H. do 3 bind_inv H.
  exists a, a0, a1. repeat split; assumption.
Qed.

Lemma write_top_layout data ws ws' :
  write_top data ws = Ok ws' -> same_layout ws ws'.
Proof.
  intros H. destruct (write_top_inv _ _ _ H) as (ws1 & t & ws2 & H1 & _ & H2 & H3).
  eapply same_layout_trans; [|eapply same_layout_trans].
  - eapply same_layout_set_cell_values, H1.
  - eapply same_layout_set_cell_values, H2.
  - eapply same_layout_set_cell_values, H3.
Qed.

(** The coerced values of one field over the items. *)
Lemma float_fields_spec key items xs :
  float_fields key items = Ok xs <->
  Forall2 (fun item x => py_float (dict_get item key (PInt 0)) = Ok x) items xs.
Proof.
  revert xs. induction items as [|item rest IH]; intros xs; simpl.
  - split; [intros [= <-]; constructor|intros H; by inversion H].
  - split.
    + intros H. bind_inv H. bind_inv H. injection H as <-.
      constructor; [done|by apply IH].
    + intros H. inversion H as [|? x ? xs' Hx Hrest]; subst.
      rewrite Hx. simpl. apply IH in Hrest. by rewrite Hrest.
Qed.


End ReportTop.

(** ** The formatting scrubber *)

Lemma max_of_ge (l : list Z) (x : Z) : x ∈ l -> x <= max_of l.
Proof.
  destruct l as [|y l]; [by intros H%elem_of_nil|]. simpl.
  revert y. induction l as [|z l IH]; intros y Hx; simpl.
  - apply list_elem_of_singleton in Hx. lia.
  - apply elem_of_cons in Hx as [Hx|Hx].
    + specialize (IH y ltac:(apply elem_of_cons; by left)). lia.
    + apply elem_of_cons in Hx as [Hx|Hx]; [lia|].
      specialize (IH y ltac:(apply elem_of_cons; by right)). lia.
Qed.

Lemma ws_max_row_ge ws (rc : coord) x :
  cells ws !! rc = Some x -> fst rc <= ws_max_row ws.
Proof.
  intros H. apply max_of_ge. apply list_elem_of_fmap.
  exists (rc, x). split; [done|]. by apply elem_of_map_to_list.
Qed.

Lemma scrubbed_scrub_cell c : scrubbed (scrub_cell c).
Proof.
  destruct c as [v st|st]; unfold scrubbed, scrub_cell; simpl; [|done].
  repeat split. destruct (py_truthy v) eqn:E; done.
Qed.

Lemma scrubbed_blank : scrubbed blank_cell.
Proof. done. Qed.

Lemma scrub_rows_spec r0 r1 c0 c1 ws :
  merged_cells (scrub_rows r0 r1 c0 c1 ws) = merged_cells ws /\
  conditional_formatting (scrub_rows r0 r1 c0 c1 ws) = conditional_formatting ws /\
  (forall rc, in_box r0 r1 c0 c1 rc -> scrubbed (get_cell (scrub_rows r0 r1 c0 c1 ws) rc)) /\
  (forall rc, ~ in_box r0 r1 c0 c1 rc ->
     cells (scrub_rows r0 r1 c0 c1 ws) !! rc = cells ws !! rc) /\
  (forall rc, scrubbed (get_cell ws rc) ->
     scrubbed (get_cell (scrub_rows r0 r1 c0 c1 ws) rc)).
Proof.
  unfold scrub_rows, in_box.
  setoid_rewrite <- elem_of_box_coords.
  generalize (box_coords r0 r1 c0 c1). intros l.
  induction l as [|x l IH] using rev_ind.
  - simpl. split; [done|]. split; [done|]. split; [|done].
    intros rc H. by apply elem_of_nil in H.
  - rewrite foldl_app. cbn [foldl]. destruct IH as (I1 & I2 & I3 & I4 & I5).
    split; [done|]. split; [done|]. split; [|split].
    + intros rc Hin. rewrite get_cell_upd_cell. case_decide; [apply scrubbed_scrub_cell|].
      apply I3. apply elem_of_app in Hin as [Hin|Hin]; [done|].
      apply list_elem_of_singleton in Hin. congruence.
    + intros rc Hout. rewrite cells_upd_cell. rewrite decide_False.
      * apply I4. intros Hin. apply Hout. apply elem_of_app. by left.
      * intros ->. apply Hout. apply elem_of_app. right. by apply list_elem_of_singleton.
    + intros rc Hs. rewrite get_cell_upd_cell. case_decide; [apply scrubbed_scrub_cell|].
      by apply I5.
Qed.

Lemma cf_add_spec c0 r0 c1 r1 rule ws ws' :
  cf_add c0 r0 c1 r1 rule ws = Ok ws' ->
  cells ws' = cells ws /\ merged_cells ws' = merged_cells ws /\
  conditional_formatting ws' =
    conditional_formatting ws ++ [(mkCellRange c0 r0 c1 r1, rule)].
Proof.
  unfold cf_add. intros H. bind_inv H. apply CellRange_new_ok in Ha as [-> _].
  by injection H as <-.
Qed.

(** Beyond the last row of the sheet there is nothing to clear. *)
Lemma scrubbed_beyond ws (rc : coord) :
  ws_max_row ws < fst rc -> scrubbed (get_cell ws rc).
Proof.
  intros H. unfold get_cell. destruct (cells ws !! rc) as [x|] eqn:E; [|done].
  apply ws_max_row_ge in E. lia.
Qed.

Lemma scrub_spec (n : nat) ws ws' :
  scrub (10 + Z.of_nat n - 1) ws = Ok ws' ->
  merged_cells ws' = merged_cells ws /\
  conditional_formatting ws' =
    conditional_formatting ws ++
    [(mkCellRange 1 (10 + Z.of_nat n) 30 6000, white_rule);
     (mkCellRange 29 1 78 7, white_rule);
     (mkCellRange 31 1 78 6000, white_rule)] /\
  (forall rc, scrub_region_1 n rc \/ scrub_region_2 rc \/ scrub_region_3 rc ->
     scrubbed (get_cell ws' rc)) /\
  (forall rc, ~ scrub_region_1 n rc -> ~ scrub_region_2 rc -> ~ scrub_region_3 rc ->
     cells ws' !! rc = cells ws !! rc).
Proof.
  unfold scrub. replace (10 + Z.of_nat n - 1 + 1) with (10 + Z.of_nat n) by lia.
  intros H. bind_inv H. rename a into ws2, Ha into H2.
  bind_inv H. rename a into ws4, Ha into H4.
  apply cf_add_spec in H2 as (C2 & M2 & F2), H4 as (C4 & M4 & F4), H as (C6 & M6 & F6).
  destruct (scrub_rows_spec (10 + Z.of_nat n) (Z.min (ws_max_row ws) 6000) 1 30 ws)
    as (A1 & A2 & A3 & A4 & A5).
  destruct (scrub_rows_spec 1 7 29 78 ws2) as (B1 & B2 & B3 & B4 & B5).
  destruct (scrub_rows_spec 1 (Z.min (ws_max_row ws4) 6000) 31 78 ws4)
    as (D1 & D2 & D3 & D4 & D5).
  set (ws1 := scrub_rows (10 + Z.of_nat n) (Z.min (ws_max_row ws) 6000) 1 30 ws) in *.
  set (ws3 := scrub_rows 1 7 29 78 ws2) in *.
  set (ws5 := scrub_rows 1 (Z.min (ws_max_row ws4) 6000) 31 78 ws4) in *.
  clearbody ws1 ws3 ws5.
  assert (forall rc, get_cell ws2 rc = get_cell ws1 rc) as G2
    by (intros; unfold get_cell; by rewrite C2).
  assert (forall rc, get_cell ws4 rc = get_cell ws3 rc) as G4
    by (intros; unfold get_cell; by rewrite C4).
  assert (forall rc, get_cell ws' rc = get_cell ws5 rc) as G6
    by (intros; unfold get_cell; by rewrite C6).
  split; [congruence|]. split.
  { rewrite F6, D2, F4, B2, F2, A2. by rewrite <- !app_assoc. }
  split.
  - intros rc Hreg. rewrite G6.
    destruct (decide (in_box 1 (Z.min (ws_max_row ws4) 6000) 31 78 rc)) as [Hin|Hout];
      [by apply D3|].
    apply D5. rewrite G4.
    destruct Hreg as [H1|[H2|H3]].
    + apply B5. rewrite G2.
      destruct (decide (in_box (10 + Z.of_nat n) (Z.min (ws_max_row ws) 6000) 1 30 rc))
        as [Hin1|Hout1]; [by apply A3|].
      unfold get_cell. rewrite A4 by done. apply scrubbed_beyond.
      unfold scrub_region_1, in_box in *. lia.
    + by apply B3.
    + rewrite <- G4. apply scrubbed_beyond.
      unfold scrub_region_3, in_box in *. lia.
  - intros rc N1 N2 N3. rewrite C6, D4, C4, B4, C2, A4; try done.
    + unfold scrub_region_1, in_box in *. lia.
    + unfold scrub_region_3, in_box in *. lia.
Qed.

(** ** The export as a whole *)

Lemma no_nesting_NoDup (l : list CellRange) : no_nesting l -> NoDup l.
Proof.
  induction l as [|a l IH]; simpl; [constructor|]. intros [Ha Hl].
  constructor; [|by apply IH]. intros Hin.
  apply list_elem_of_In in Hin. specialize (Ha a Hin).
  unfold range_subset in Ha. by rewrite !Z.leb_refl in Ha.
Qed.

Lemma clones_for_NoDup (n : nat) (regions : list CellRange) :
  NoDup regions -> Forall (fun b => on_template_row b = true) regions ->
  NoDup (clones_for n regions).
Proof.
  intros Hnd Hon. unfold clones_for. apply NoDup_bind; [| |apply NoDup_seq].
  - intros i1 i2 y _ _ H1 H2.
    apply list_elem_of_fmap in H1 as (t1 & -> & _), H2 as (t2 & E & _).
    injection E as _ E _ _. lia.
  - intros i _. apply NoDup_fmap_2_strong; [|done].
    intros a b Ha Hb E. rewrite Forall_forall in Hon.
    pose proof (Hon a Ha) as Ca. pose proof (Hon b Hb) as Cb.
    unfold on_template_row in Ca, Cb. rewrite andb_true_iff, !Z.eqb_eq in Ca, Cb.
    destruct a, b; simpl in *. injection E as -> ->. destruct Ca, Cb. by subst.
Qed.

Lemma saved_ok (r : result (string * Worksheet)) :
  is_ok r = true -> r = Ok (saved_path r, saved_sheet r).
Proof. by destruct r as [[p w]|e]. Qed.

Section ReportWhole.
Context {builtins : PyBuiltins}.

Lemma export_excel_inv data ws_data ws p ws' :
  export_excel data ws_data ws = Ok (p, ws') ->
  exists ws1 ws2,
    write_top data (prebake ws_data ws) = Ok ws1 /\
    write_rows (items data) ws1 = Ok ws2 /\
    scrub (10 + Z.of_nat (length (items data)) - 1) ws2 = Ok ws'.
Proof.
  unfold export_excel. intros H. do 3 bind_inv H. injection H as _ <-.
  exists a, a0. repeat split; assumption.
Qed.

Lemma export_excel_top_layout data ws_data ws ws1 :
  write_top data (prebake ws_data ws) = Ok ws1 -> same_layout ws ws1.
Proof.
  intros H. eapply same_layout_trans; [apply same_layout_prebake|].
  by eapply write_top_layout.
Qed.

(** C1: on a template whose merged regions all end on or above the
    template row and do not cover one another, the regions of the
    finished sheet are the template's followed by one clone of every
    region lying exactly on row 10 for each inserted row 11, ...,
    10 + N - 1, with the same first and last column.  Each clone occurs
    once, so no region is cloned twice or onto another row, and none
    lies in rows 1-9. *)
Theorem template_regions_cloned data ws_data ws p ws' :
  (forall r, In r (merged_cells ws) -> max_row (bounds r) <= template_row) ->
  no_nesting (template_regions ws) ->
  export_excel data ws_data ws = Ok (p, ws') ->
  bounds <$> merged_cells ws' =
    (bounds <$> merged_cells ws) ++
    clones_for (length (items data)) (template_regions ws) /\
  NoDup (clones_for (length (items data)) (template_regions ws)) /\
  (forall b, b ∈ clones_for (length (items data)) (template_regions ws) <->
     exists (i : nat) t, (1 <= i < length (items data))%nat /\
       t ∈ template_regions ws /\
       b = mkCellRange (min_col t) (10 + Z.of_nat i) (max_col t) (10 + Z.of_nat i)).
Proof.
  intros Hmax Hnest H.
  destruct (export_excel_inv _ _ _ _ _ H) as (ws1 & ws2 & H1 & H2 & H3).
  pose proof (export_excel_top_layout _ _ _ _ H1) as [L1 _ _ _].
  destruct (scrub_spec _ _ _ H3) as (S1 & _).
  assert (template_regions ws1 = template_regions ws) as Ht
    by (unfold template_regions; by rewrite L1).
  split; [|split].
  - rewrite S1, (write_rows_bounds _ _ _ H2); rewrite ?L1, ?Ht; done.
  - apply clones_for_NoDup; [by apply no_nesting_NoDup|].
    apply Forall_forall. intros b Hb. unfold template_regions in Hb.
    apply list_elem_of_In, filter_In in Hb. tauto.
  - intros b. apply elem_of_clones_for.
Qed.

End ReportWhole.

Lemma template_regions_cloned_witness :
  (forall r, In r (merged_cells sheet_a10_c10) -> max_row (bounds r) <= template_row) /\
  no_nesting (template_regions sheet_a10_c10) /\
  bounds <$> merged_cells (saved_sheet two_blank_rows) =
    [mkCellRange 1 10 3 10; mkCellRange 1 11 3 11].
Proof.
  assert (forall r, In r (merged_cells sheet_a10_c10) ->
                    max_row (bounds r) <= template_row) as H1.
  { intros r [<-|[]]. vm_compute. discriminate. }
  assert (no_nesting (template_regions sheet_a10_c10)) as H2.
  { vm_compute. split; [intros b []|exact I]. }
  split; [exact H1|]. split; [exact H2|].
  assert (two_blank_rows = Ok (saved_path two_blank_rows, saved_sheet two_blank_rows)) as H3
    by (apply saved_ok; vm_compute; reflexivity).
  destruct (template_regions_cloned (builtins := no_parsing)
              two_blank_items sheet_a10_c10 sheet_a10_c10 _ _ H1 H2 H3) as [E _].
  rewrite E. vm_compute. reflexivity.
Defined.

(** ** The conditional formats *)




Section ReportFormats.
Context {builtins : PyBuiltins}.


End ReportFormats.

(** ** The data rows of the finished sheet *)

Lemma data_rows_not_scrubbed (n : nat) (rc : coord) :
  data_rows n rc ->
  ~ scrub_region_1 n rc /\ ~ scrub_region_2 rc /\ ~ scrub_region_3 rc.
Proof.
  unfold data_rows, scrub_region_1, scrub_region_2, scrub_region_3, in_box. lia.
Qed.

Lemma scrub_keeps_data_rows (n : nat) ws ws' (rc : coord) :
  scrub (10 + Z.of_nat n - 1) ws = Ok ws' -> data_rows n rc ->
  get_cell ws' rc = get_cell ws rc.
Proof.
  intros H Hrc. destruct (scrub_spec _ _ _ H) as (_ & _ & _ & Hout).
  destruct (data_rows_not_scrubbed _ _ Hrc) as (N1 & N2 & N3).
  unfold get_cell. by rewrite Hout.
Qed.

Section ReportRows.
Context {builtins : PyBuiltins}.

(** C2: for a non-empty item list of length N, on a template none of
    whose merged regions starts below the template row, the rows 10 to
    10 + N - 1 of the finished sheet are the populated ones: row 10 + i
    carries the banding of item i in all thirty columns and, where
    column A is clear of merged regions, the [hts_code] of item i.  The
    loop inserts exactly N - 1 rows, all under row 10: whatever lay on a
    row r > 10 when the loop started lies on row r + N - 1 when it ends,
    so the first item takes the template row as it is and every later
    item gets a fresh row right under the rows already written. *)
Theorem data_rows_layout data ws_data ws p ws' :
  items data <> [] ->
  (forall r, In r (merged_cells ws) -> fst (start_cell r) <= template_row) ->
  export_excel data ws_data ws = Ok (p, ws') ->
  (forall (i : nat) (c : Z), (i < length (items data))%nat -> 1 <= c <= 30 ->
     fill (cell_style ws' (10 + Z.of_nat i, c)) = band_fill i) /\
  (col_free ws 1 -> ~ is_merged_cell ws (template_row, 1) ->
   forall (i : nat) item, items data !! i = Some item ->
     cell_value ws' (10 + Z.of_nat i, 1) = dict_get item "hts_code" (PStr EmptyString)) /\
  exists ws1 ws2,
    write_top data (prebake ws_data ws) = Ok ws1 /\
    write_rows (items data) ws1 = Ok ws2 /\
    scrub (10 + Z.of_nat (length (items data)) - 1) ws2 = Ok ws' /\
    forall r c : Z, template_row < r ->
      cells ws2 !! (r + (Z.of_nat (length (items data)) - 1), c) = cells ws1 !! (r, c).
Proof.
  intros Hne Hstarts H.
  destruct (export_excel_inv _ _ _ _ _ H) as (ws1 & ws2 & H1 & H2 & H3).
  pose proof (export_excel_top_layout _ _ _ _ H1) as Hlay.
  split; [|split].
  - intros i c Hi Hc.
    unfold cell_style. rewrite (scrub_keeps_data_rows _ _ _ _ H3).
    + by apply (write_rows_fills _ _ _ H2).
    + unfold data_rows, in_box; simpl. lia.
  - intros Hcol Hn i item Hi.
    destruct (write_rows_column 1
                (fun it v => v = dict_get it "hts_code" (PStr EmptyString))
                ltac:(intros row it w w' Hf Hp;
                      destruct (populate_hts_code _ _ _ _ Hf Hp) as (st & E);
                      eauto)
                (items data) ws1 ws2
                (same_layout_col_free _ _ _ Hlay Hcol)
                (same_layout_not_merged _ _ _ Hlay Hn) H2 i item Hi)
      as (_ & v & -> & Hv).
    unfold cell_value in *. rewrite (scrub_keeps_data_rows _ _ _ _ H3); [done|].
    apply lookup_lt_Some in Hi. unfold data_rows, in_box; simpl. lia.
  - exists ws1, ws2. repeat split; try done.
    apply write_rows_below; [done|done|].
    destruct Hlay as [L1 _ _ _]. by rewrite L1.
Qed.

End ReportRows.

Section ReportValues.
Context {builtins : PyBuiltins}.

(** C5: where the columns Z and AB are clear of merged regions, the
    row of every item holds in Z the item's [vat_base] minus its [kkdf]
    and in AB that difference times the [vat_percent] of the item's
    [hs_code_data] (0 when the item has none), all three coerced with
    [float], an absent field counting as 0.  With [vat_base] 100.0,
    [kkdf] 5.0 and [vat_percent] 0.10 the two cells hold 95.0 and
    9.5. *)
Theorem vat_columns data ws_data ws p ws' :
  col_free ws 26 -> col_free ws 28 ->
  ~ is_merged_cell ws (template_row, 26) -> ~ is_merged_cell ws (template_row, 28) ->
  export_excel data ws_data ws = Ok (p, ws') ->
  forall (i : nat) item, items data !! i = Some item ->
    exists vat_base kkdf vat_percent,
      py_float (dict_get item "vat_base" (PInt 0)) = Ok vat_base /\
      py_float (dict_get item "kkdf" (PInt 0)) = Ok kkdf /\
      item_vat_percent item = Ok vat_percent /\
      cell_value ws' (10 + Z.of_nat i, 26) = PFloat (PrimFloat.sub vat_base kkdf) /\
      cell_value ws' (10 + Z.of_nat i, 28) =
        PFloat (PrimFloat.mul (PrimFloat.sub vat_base kkdf) vat_percent) /\
      (vat_base = 100%float -> kkdf = 5%float -> vat_percent = 0x1.999999999999ap-4%float ->
       cell_value ws' (10 + Z.of_nat i, 26) = PFloat 95%float /\
       cell_value ws' (10 + Z.of_nat i, 28) = PFloat 9.5%float).
Proof.
  intros Hz Hab Hnz Hnab H i item Hi.
  destruct (export_excel_inv _ _ _ _ _ H) as (ws1 & ws2 & H1 & H2 & H3).
  pose proof (export_excel_top_layout _ _ _ _ H1) as Hlay.
  pose (V26 := fun (it : gmap string pyval) (v : pyval) =>
          exists b k, py_float (dict_get it "vat_base" (PInt 0)) = Ok b /\
                      py_float (dict_get it "kkdf" (PInt 0)) = Ok k /\
                      v = PFloat (PrimFloat.sub b k)).
  pose (V28 := fun (it : gmap string pyval) (v : pyval) =>
          exists b k q, py_float (dict_get it "vat_base" (PInt 0)) = Ok b /\
                        py_float (dict_get it "kkdf" (PInt 0)) = Ok k /\
                        item_vat_percent it = Ok q /\
                        v = PFloat (PrimFloat.mul (PrimFloat.sub b k) q)).
  assert (exists v, V26 item v /\ cell_value ws2 (10 + Z.of_nat i, 26) = v)
    as (v26 & (b & k & Eb & Ek & ->) & E26).
  { refine (proj2 (write_rows_column 26 V26 _ (items data) ws1 ws2
                     (same_layout_col_free _ _ _ Hlay Hz)
                     (same_layout_not_merged _ _ _ Hlay Hnz) H2 i item Hi)).
    intros row it w w' Hf Hp.
    destruct (populate_column_Z _ _ _ _ Hf Hp) as (vb & kk & st & ? & ? & Hc).
    eexists _, st. split; [|exact Hc]. by exists vb, kk. }
  assert (exists v, V28 item v /\ cell_value ws2 (10 + Z.of_nat i, 28) = v)
    as (v28 & (b' & k' & q & Eb' & Ek' & Eq & ->) & E28).
  { refine (proj2 (write_rows_column 28 V28 _ (items data) ws1 ws2
                     (same_layout_col_free _ _ _ Hlay Hab)
                     (same_layout_not_merged _ _ _ Hlay Hnab) H2 i item Hi)).
    intros row it w w' Hf Hp.
    destruct (populate_column_AB _ _ _ _ Hf Hp) as (vb & kk & vp & st & ? & ? & ? & Hc).
    eexists _, st. split; [|exact Hc]. by exists vb, kk, vp. }
  assert (b' = b) as -> by congruence. assert (k' = k) as -> by congruence.
  apply lookup_lt_Some in Hi.
  assert (cell_value ws' (10 + Z.of_nat i, 26) = PFloat (PrimFloat.sub b k)) as F26.
  { unfold cell_value in *. rewrite (scrub_keeps_data_rows _ _ _ _ H3); [done|].
    unfold data_rows, in_box; simpl. lia. }
  assert (cell_value ws' (10 + Z.of_nat i, 28) =
          PFloat (PrimFloat.mul (PrimFloat.sub b k) q)) as F28.
  { unfold cell_value in *. rewrite (scrub_keeps_data_rows _ _ _ _ H3); [done|].
    unfold data_rows, in_box; simpl. lia. }
  exists b, k, q.
  split; [done|]. split; [done|]. split; [done|]. split; [done|]. split; [done|].
  intros -> -> ->. split; [exact F26|exact F28].
Qed.

End ReportValues.

Section ReportSummary.
Context {builtins : PyBuiltins}.







End ReportSummary.

Section ReportScrub.
Context {builtins : PyBuiltins}.


End ReportScrub.





(** ** Coercion failures *)

Section ReportCoercions.
Context {builtins : PyBuiltins}.

Lemma float_field_ok d key v :
  float_field d key = Ok v -> exists x, py_float (dict_get d key (PInt 0)) = Ok x.
Proof. unfold float_field. intros H. bind_inv H. eauto. Qed.

Lemma int_field_ok d key v :
  int_field d key = Ok v -> exists z, py_int (dict_get d key (PInt 0)) = Ok z.
Proof. unfold int_field. intros H. bind_inv H. eauto. Qed.

Lemma hs_field_ok hs key v :
  hs_field hs key = Ok v ->
  exists d x, hs = PDict d /\ py_float (dict_get d key (PInt 0)) = Ok x.
Proof.
  unfold hs_field, hs_float. intros H. bind_inv H.
  destruct hs; try discriminate. eauto.
Qed.

(** [populate] coerces every numeric field it reads. *)
Lemma populate_coerces row item ws ws' :
  populate row item ws = Ok ws' ->
  Forall (fun key => exists x, py_float (dict_get item key (PInt 0)) = Ok x)
    ["cost"; "total_value"; "transport_share"; "insurance_share"; "storage_share";
     "customs_tax"; "additional_customs_tax"; "kkdf"; "vat"; "total_tax_usd"; "vat_base"] /\
  (exists z, py_int (dict_get item "unit_count" (PInt 0)) = Ok z) /\
  (forall d, item !! "hs_code_data" = Some (PDict d) -> d <> ∅ ->
     Forall (fun key => exists x, py_float (dict_get d key (PInt 0)) = Ok x) percent_keys).
Proof.
  unfold populate. intros H.
  do 3 bind_inv H. bind_inv H. rename a2 into ws1, Ha2 into H1.
  bind_inv H. rename a2 into ws2, Ha2 into H2.
  do 7 bind_inv H.
  apply set_cell_values_args in H1.
  repeat match goal with
         | Hall : Forall _ (_ :: _) |- _ =>
             let Hh := fresh "Harg" in
             apply Forall_cons in Hall as [Hh Hall]; destruct Hh as [? Hh]; simpl in Hh
         end.
  split; [|split].
  - repeat constructor; eauto using float_field_ok.
  - eauto using int_field_ok.
  - intros d Hd Hne. unfold dict_get in H2. rewrite Hd in H2.
    cbn [default from_option id py_truthy] in H2.
    rewrite bool_decide_eq_false_2 in H2 by done. cbn [negb] in H2.
    apply set_cell_values_args in H2.
    repeat match goal with
           | Hall : Forall _ (_ :: _) |- _ =>
               let Hh := fresh "Hpct" in
               apply Forall_cons in Hall as [Hh Hall]; destruct Hh as [? Hh]; simpl in Hh;
               apply hs_field_ok in Hh as (? & ? & [= <-] & Hh)
           end.
    repeat constructor; eauto.
Qed.

Lemma write_rows_from_each k items ws ws' (i : nat) item :
  write_rows_from k items ws = Ok ws' -> items !! i = Some item ->
  exists w w', write_row (k + i) item w = Ok w'.
Proof.
  revert k ws i. induction items as [|it rest IH]; intros k ws i H Hi; [done|].
  simpl in H. bind_inv H. destruct i as [|i]; simpl in Hi.
  - injection Hi as ->. rewrite Nat.add_0_r. eauto.
  - destruct (IH _ _ _ H Hi) as (w & w' & Hw). rewrite Nat.add_succ_comm in Hw. eauto.
Qed.

Lemma float_fields_each key items xs (i : nat) item :
  float_fields key items = Ok xs -> items !! i = Some item ->
  exists x, py_float (dict_get item key (PInt 0)) = Ok x.
Proof.
  intros H Hi. apply float_fields_spec in H.
  destruct (Forall2_lookup_l _ _ _ _ _ H Hi) as (x & _ & Hx). eauto.
Qed.

(** A finished export has coerced every numeric field of every item. *)
Lemma export_coerces data ws_data ws p ws' (i : nat) item :
  export_excel data ws_data ws = Ok (p, ws') -> items data !! i = Some item ->
  Forall (fun key => exists x, py_float (dict_get item key (PInt 0)) = Ok x) float_keys /\
  (exists z, py_int (dict_get item "unit_count" (PInt 0)) = Ok z) /\
  (forall d, item !! "hs_code_data" = Some (PDict d) -> d <> ∅ ->
     Forall (fun key => exists x, py_float (dict_get d key (PInt 0)) = Ok x) percent_keys).
Proof.
  intros H Hi.
  destruct (export_excel_inv _ _ _ _ _ H) as (ws1 & ws2 & H1 & H2 & _).
  destruct (write_top_inv _ _ _ H1) as (_ & t & _ & _ & Ht & _ & _).
  unfold compute_totals in Ht. do 5 bind_inv Ht. bind_inv Ht.
  unfold sum_field in Ha4. bind_inv Ha4.
  destruct (float_fields_each _ _ _ _ _ Ha5 Hi) as (tl & Htl).
  destruct (write_rows_from_each _ _ _ _ _ _ H2 Hi) as (w & w' & Hw).
  destruct (write_row_inv _ _ _ _ Hw) as (w1 & w2 & _ & Hp & _).
  destruct (populate_coerces _ _ _ _ Hp) as (Hfl & Hint & Hpct).
  split; [|split; [exact Hint|exact Hpct]].
  unfold float_keys.
  repeat match goal with
         | Hall : Forall _ (_ :: _) |- _ =>
             let Hh := fresh "Hkey" in apply Forall_cons in Hall as [Hh Hall]
         end.
  repeat constructor; eauto.
Qed.

(** C7: when a numeric field of some item ([cost], [unit_count],
    [total_value], the three shares, the tax amounts, [vat_base], or a
    percentage of its [hs_code_data]) is present and [float] (for
    [unit_count]: [int]) raises on it, the export raises: no path is
    returned and no sheet is saved, so nothing is written as zero.  A
    field that is absent is read as 0 and coerces without error. *)
Theorem uncoercible_field_aborts data ws_data ws (i : nat) item :
  items data !! i = Some item -> uncoercible item ->
  (exists e, export_excel data ws_data ws = Raise e) /\
  (forall (it : gmap string pyval) key, it !! key = None ->
     py_float (dict_get it key (PInt 0)) = Ok 0%float /\
     py_int (dict_get it key (PInt 0)) = Ok 0).
Proof.
  intros Hi Hbad. split.
  - destruct (export_excel data ws_data ws) as [[p ws']|e] eqn:E; [|by exists e].
    exfalso. destruct (export_coerces _ _ _ _ _ _ _ E Hi) as (Hfl & [z Hint] & Hpct).
    destruct Hbad as [(key & v & e & Hkey & Hv & Hraise)|
                      [(v & e & Hv & Hraise)|(d & key & v & e & Hd & Hkey & Hv & Hraise)]].
    + rewrite Forall_forall in Hfl. destruct (Hfl key Hkey) as [x Hx].
      unfold dict_get in Hx. rewrite Hv in Hx. simpl in Hx. congruence.
    + unfold dict_get in Hint. rewrite Hv in Hint. simpl in Hint. congruence.
    + assert (d <> ∅) as Hne by (intros ->; by rewrite lookup_empty in Hv).
      specialize (Hpct d Hd Hne). rewrite Forall_forall in Hpct.
      destruct (Hpct key Hkey) as [x Hx].
      unfold dict_get in Hx. rewrite Hv in Hx. simpl in Hx. congruence.
  - intros it key Hk. unfold dict_get. rewrite Hk. split; reflexivity.
Qed.

End ReportCoercions.

(** ** The declaration export *)

Module BeyannameFacts.
Import BeyannameExport.

Lemma ws_setitem_inv ws ref v ws' :
  ws_setitem ws ref v = Ok ws' ->
  exists st, cells ws' = <[coordinate_to_tuple ref := Cell v st]> (cells ws).
Proof.
  unfold ws_setitem. intros H. apply set_value_inv in H as (v0 & st & _ & ->).
  by exists st.
Qed.

Lemma ws_setitems_other ws writes ws' (rc : coord) :
  ws_setitems ws writes = Ok ws' ->
  Forall (fun w => coordinate_to_tuple (fst w) <> rc) writes ->
  cells ws' !! rc = cells ws !! rc.
Proof.
  revert ws. induction writes as [|[ref v] writes IH]; intros ws H Hall; simpl in H.
  - by injection H as <-.
  - bind_inv H. inversion Hall as [|? ? Hne Hall']; subst.
    rewrite (IH _ H Hall'). apply ws_setitem_inv in Ha as (st & ->).
    by rewrite lookup_insert_ne.
Qed.

Ltac other_list row :=
  cbn; repeat (constructor; [cbn; intros [=]; try lia|]); constructor.

Section Declaration.
Context {builtins : PyBuiltins}.

(** One item: column B of its row holds cost times units, and no other
    row is touched. *)
Lemma write_item_spec mapping row item ws ws' :
  write_item mapping row item ws = Ok ws' ->
  (exists cost units total st,
     py_float (dict_get item "cost" (PInt 0)) = Ok cost /\
     py_int (dict_get item "unit_count" (PInt 0)) = Ok units /\
     invoice_value cost units = Ok total /\
     cells ws' !! (row, 2) = Some (Cell (PFloat total) st)) /\
  (forall rc : coord, fst rc <> row -> cells ws' !! rc = cells ws !! rc).
Proof.
  unfold write_item. intros H.
  do 10 bind_inv H. bind_inv H. rename a9 into ws1, Ha9 into H1.
  set (ws2 := upd_cell _ _ ws1) in H.
  assert (forall rc : coord, rc <> (row, 3) -> cells ws2 !! rc = cells ws1 !! rc) as H2.
  { intros rc Hne. unfold ws2. rewrite cells_upd_cell. by rewrite decide_False. }
  clearbody ws2. split.
  - exists a, a0, a1. 
    assert (exists st, cells ws1 !! (row, 2) = Some (Cell (PFloat a1) st)) as [st Hst].
    { simpl in H1. bind_inv H1. bind_inv H1. bind_inv H1. injection H1 as <-.
      apply ws_setitem_inv in Ha10 as (st1 & E1), Ha11 as (st2 & E2).
      exists st1. rewrite E2, lookup_insert_ne by (cbn; intros [=]).
      rewrite E1. cbn. by rewrite lookup_insert_eq. }
    exists st. repeat split; try done.
    rewrite (ws_setitems_other _ _ _ (row, 2) H); [|other_list row].
    rewrite H2 by (intros [=]). done.
  - intros rc Hne.
    rewrite (ws_setitems_other _ _ _ rc H);
      [|cbn; repeat (constructor; [cbn; intros <-; simpl in Hne; lia|]); constructor].
    rewrite H2 by (intros ->; simpl in Hne; lia).
    apply (ws_setitems_other _ _ _ rc H1).
    cbn; repeat (constructor; [cbn; intros <-; simpl in Hne; lia|]); constructor.
Qed.

Lemma write_items_from_above mapping k items ws ws' (rc : coord) :
  write_items_from mapping k items ws = Ok ws' ->
  fst rc < start_row + Z.of_nat k -> cells ws' !! rc = cells ws !! rc.
Proof.
  revert k ws. induction items as [|item rest IH]; intros k ws H Hlt; simpl in H.
  - by injection H as <-.
  - bind_inv H. rewrite (IH _ _ H) by lia.
    apply write_item_spec in Ha as [_ Hother]. apply Hother. lia.
Qed.

Lemma write_items_from_each mapping k items ws ws' (i : nat) item :
  write_items_from mapping k items ws = Ok ws' -> items !! i = Some item ->
  exists cost units total,
    py_float (dict_get item "cost" (PInt 0)) = Ok cost /\
    py_int (dict_get item "unit_count" (PInt 0)) = Ok units /\
    invoice_value cost units = Ok total /\
    cell_value ws' (start_row + Z.of_nat (k + i), 2) = PFloat total.
Proof.
  revert k ws i. induction items as [|it rest IH]; intros k ws i H Hi; [done|].
  simpl in H. bind_inv H. destruct i as [|i]; simpl in Hi.
  - injection Hi as ->. rewrite Nat.add_0_r.
    apply write_item_spec in Ha as [(cost & units & total & st & ? & ? & ? & Hc) _].
    exists cost, units, total. repeat split; try done.
    unfold cell_value, get_cell.
    rewrite (write_items_from_above _ _ _ _ _ _ H) by (simpl; lia).
    by rewrite Hc.
  - rewrite <- Nat.add_succ_comm. by eapply IH.
Qed.

End Declaration.
End BeyannameFacts.

Section DeclarationClaims.
Context {builtins : PyBuiltins}.

(** C10: in a finished declaration export, column B of the row of
    every item (row 2 + i for item i) holds [float(cost)] times
    [int(unit_count)], both read from the item with 0 for an absent
    field.  The item's own [total_value] is never read: putting any
    other value under that key leaves everything written for the item
    as it was. *)
Theorem kiymet_is_cost_times_units data ws g p ws' :
  fst (BeyannameExport.export_beyanname_excel data ws g) = Ok (p, ws') ->
  forall (i : nat) item, BeyannameExport.items data !! i = Some item ->
    exists cost units u,
      py_float (dict_get item "cost" (PInt 0)) = Ok cost /\
      py_int (dict_get item "unit_count" (PInt 0)) = Ok units /\
      float_of_int units = Ok u /\
      cell_value ws' (2 + Z.of_nat i, 2) = PFloat (PrimFloat.mul cost u) /\
      forall supplied mapping row w,
        BeyannameExport.write_item mapping row (<["total_value" := supplied]> item) w =
        BeyannameExport.write_item mapping row item w.
Proof.
  unfold BeyannameExport.export_beyanname_excel. simpl. intros H i item Hi.
  bind_inv H. bind_inv H. injection H as _ <-.
  destruct (BeyannameFacts.write_items_from_each _ _ _ _ _ _ _ Ha0 Hi)
    as (cost & units & total & Hc & Hu & Ht & Hcell).
  unfold BeyannameExport.invoice_value in Ht. bind_inv Ht. injection Ht as <-.
  exists cost, units, a1. repeat split; try done.
  intros supplied mapping row w.
  unfold BeyannameExport.write_item, dict_get.
  by rewrite !lookup_insert_ne.
Qed.

End DeclarationClaims.

Lemma kiymet_is_cost_times_units_witness :
  odd_total_export = Ok (saved_path odd_total_export, saved_sheet odd_total_export) /\
  cell_value (saved_sheet odd_total_export) (2, 2) = PFloat 50%float /\
  odd_total_item !! "total_value" = Some (PFloat 999%float).
Proof.
  assert (odd_total_export = Ok (saved_path odd_total_export, saved_sheet odd_total_export))
    as H by (apply saved_ok; vm_compute; reflexivity).
  split; [exact H|]. split; [|reflexivity].
  destruct (kiymet_is_cost_times_units (builtins := no_parsing) odd_total_data empty_sheet
              BeyannameExport.initial_globals _ _ H 0%nat odd_total_item eq_refl)
    as (cost & units & u & Hc & Hu & Hf & Hcell & _).
  vm_compute in Hc. injection Hc as <-.
  vm_compute in Hu. injection Hu as <-.
  vm_compute in Hf. injection Hf as <-.
  exact Hcell.
Defined.

(** ** The country-code table *)


Section CountryCodes.
Context {builtins : PyBuiltins}.


End CountryCodes.

(** ** Concrete checks *)

Lemma empty_sheet_col_free (c : Z) : col_free empty_sheet c.
Proof. intros r []. Qed.

Lemma empty_sheet_not_merged (rc : coord) : ~ is_merged_cell empty_sheet rc.
Proof. intros [st H]. simpl in H. by rewrite lookup_empty in H. Qed.

Lemma data_rows_layout_witness :
  items two_blank_items <> [] /\
  (forall r, In r (merged_cells sheet_a10_c10) -> fst (start_cell r) <= template_row) /\
  fill (cell_style (saved_sheet two_blank_rows) (10, 5)) = gray_fill /\
  fill (cell_style (saved_sheet two_blank_rows) (11, 5)) = white_fill.
Proof.
  assert (items two_blank_items <> []) as H1 by discriminate.
  assert (forall r, In r (merged_cells sheet_a10_c10) ->
                    fst (start_cell r) <= template_row) as H2.
  { intros r [<-|[]]. vm_compute. discriminate. }
  split; [exact H1|]. split; [exact H2|].
  destruct (data_rows_layout (builtins := no_parsing)
              two_blank_items sheet_a10_c10 sheet_a10_c10 _ _ H1 H2
              (saved_ok two_blank_rows ltac:(vm_compute; reflexivity)))
    as [Hfill _].
  split.
  - apply (Hfill 0%nat 5); simpl; lia.
  - apply (Hfill 1%nat 5); simpl; lia.
Defined.

Lemma vat_columns_witness :
  col_free empty_sheet 26 /\ col_free empty_sheet 28 /\
  ~ is_merged_cell empty_sheet (template_row, 26) /\
  ~ is_merged_cell empty_sheet (template_row, 28) /\
  cell_value (saved_sheet scenario_d) (10, 26) = PFloat 95%float /\
  cell_value (saved_sheet scenario_d) (10, 28) = PFloat 9.5%float.
Proof.
  split; [apply empty_sheet_col_free|]. split; [apply empty_sheet_col_free|].
  split; [apply empty_sheet_not_merged|]. split; [apply empty_sheet_not_merged|].
  destruct (vat_columns (builtins := no_parsing)
              (mkData ∅ [scenario_d_item]) empty_sheet empty_sheet _ _
              (empty_sheet_col_free 26) (empty_sheet_col_free 28)
              (empty_sheet_not_merged _) (empty_sheet_not_merged _)
              (saved_ok scenario_d ltac:(vm_compute; reflexivity))
              0%nat scenario_d_item eq_refl)
    as (b & k & q & Hb & Hk & Hq & _ & _ & Hd).
  vm_compute in Hb. injection Hb as <-.
  vm_compute in Hk. injection Hk as <-.
  vm_compute in Hq. injection Hq as <-.
  exact (Hd eq_refl eq_refl eq_refl).
Defined.



Lemma uncoercible_field_aborts_witness :
  uncoercible (H := no_parsing) null_cost_item /\
  exists e, export_excel (builtins := no_parsing) (mkData ∅ [∅; null_cost_item])
              empty_sheet empty_sheet = Raise e.
Proof.
  assert (uncoercible (H := no_parsing) null_cost_item) as Hbad.
  { left. exists "cost", PNone, TypeError. split; [|split; reflexivity].
    unfold float_keys. apply list_elem_of_here. }
  split; [exact Hbad|].
  exact (proj1 (uncoercible_field_aborts (builtins := no_parsing)
                  (mkData ∅ [∅; null_cost_item]) empty_sheet empty_sheet
                  1%nat null_cost_item eq_refl Hbad)).
Defined.
